(** * odooconn: a thin XML-RPC client for an Odoo server

    A shallow embedding of [odooconn.py] (class [OdooConn]) and the
    properties of its methods: the shape of the request every method
    sends, what each method does with the answer, which exceptions it
    catches, and which attributes of the connection object it writes. *)

From Stdlib Require Import ZArith Ascii.
From stdpp Require Import gmap strings list fin_maps pretty.

Open Scope Z_scope.

(** ** Python values

    The values that travel over XML-RPC and are stored in the attributes of
    the connection: [None], booleans, integers, strings, lists and
    dictionaries with string keys (kept in insertion order). *)

#[warnings="-register-all"]
Inductive value : Type :=
| VNone
| VBool (b : bool)
| VInt (n : Z)
| VStr (s : string)
| VList (items : list value)
| VDict (entries : list (string * value)).

(** Python's truth test, as [if x], [not x] and [x if c else y] apply it. *)
Definition truthy (v : value) : bool :=
  match v with
  | VNone => false
  | VBool b => b
  | VInt n => negb (n =? 0)
  | VStr s => negb (String.eqb s "")
  | VList items => negb (Nat.eqb (length items) 0)
  | VDict entries => negb (Nat.eqb (length entries) 0)
  end.

(** Nesting depth of list brackets along the first element; a list that
    encloses a value is one deeper than the value. *)
Fixpoint depth (v : value) : nat :=
  match v with
  | VList (x :: _) => S (depth x)
  | VList [] => 1
  | _ => 0
  end.

(** ** Exceptions

    [Fault] is [xmlrpc.client.Fault], the remote application fault.
    [ProtocolError] and [OSError] stand for what the transport raises on its
    own; the others are raised by the interpreter. *)

Inductive exn : Type :=
| Fault (faultCode faultString : value)
| ProtocolError (errcode : Z) (errmsg : string)
| OSError (msg : string)
| IndexError (msg : string)
| TypeError (msg : string)
| KeyError (key : value)
| AttributeError (name : string).

(** [except xmlrpc.client.Fault]: the one exception class the module catches. *)
Definition is_Fault (e : exn) : bool :=
  match e with
  | Fault _ _ => true
  | _ => false
  end.

(** ** The XML-RPC library and the interpreter

    A [ServerProxy] is known by the URI it was built for. A call through a
    proxy is one request: the remote method name and the positional
    parameters. *)

Record proxy : Type := { uri : string }.

Record request : Type := {
  endpoint : string;
  rpc_method : string;
  params : list value
}.

(** What the module takes from outside. [transport] is all a proxy does
    with a request, from marshalling the parameters to unmarshalling the
    answer: it yields a value or raises, and leaves the remote side in a new
    state. Its exception may come from the library before anything is
    transmitted (a parameter it cannot marshal), from the connection, or
    from the server (a [Fault]). [ServerProxy_check] is the check
    [ServerProxy(uri)] makes on its argument; [py_str] and [exn_str] are the
    built-in [str] on values and on exceptions. *)
Class Runtime : Type := {
  remote : Type;
  transport : remote -> request -> (exn + value) * remote;
  ServerProxy_check : string -> option exn;
  py_str : value -> string;
  exn_str : exn -> string
}.

(** ** [str.format] for templates with automatically numbered fields

    Each [{}] takes the next positional argument; running out of arguments
    raises [IndexError] with the number of the field that found none. The
    four templates of the module use braces in this way only; a brace in
    any other position is copied as text here. *)

Definition replacement_index_error (index : nat) : exn :=
  IndexError ("Replacement index " +:+ pretty index
              +:+ " out of range for positional args tuple").

(** [fields_from index template args]: the template is read from its field
    number [index] on, [args] being the arguments not yet used. *)
Fixpoint fields_from (index : nat) (template : string) (args : list string)
  : exn + string :=
  match template with
  | EmptyString => inr EmptyString
  | String c rest =>
      if Ascii.eqb c "{"%char then
        match rest with
        | String c' rest' =>
            if Ascii.eqb c' "}"%char then
              match args with
              | [] => inl (replacement_index_error index)
              | a :: args' =>
                  match fields_from (S index) rest' args' with
                  | inl e => inl e
                  | inr s => inr (a +:+ s)
                  end
              end
            else
              match fields_from index rest args with
              | inl e => inl e
              | inr s => inr (String c s)
              end
        | EmptyString => inr (String c EmptyString)
        end
      else
        match fields_from index rest args with
        | inl e => inl e
        | inr s => inr (String c s)
        end
  end.

Definition str_format (template : string) (args : list string) : exn + string :=
  fields_from 0 template args.

(** [v[0]]. A dictionary that came over XML-RPC has string keys only, so
    the key [0] is never found in one. *)
Definition subscript0 (v : value) : exn + value :=
  match v with
  | VList (x :: _) => inr x
  | VList [] => inl (IndexError "list index out of range")
  | VStr (String c _) => inr (VStr (String c EmptyString))
  | VStr EmptyString => inl (IndexError "string index out of range")
  | VDict _ => inl (KeyError (VInt 0))
  | VNone => inl (TypeError "'NoneType' object is not subscriptable")
  | VBool _ => inl (TypeError "'bool' object is not subscriptable")
  | VInt _ => inl (TypeError "'int' object is not subscriptable")
  end.

(** [dict.get(key)]: the value, or [None] when the key is absent. *)
Definition dict_get (d : gmap string value) (key : string) : value :=
  default VNone (d !! key).

Section Model.
Context {rt : Runtime}.

(** ** Program state

    [fields] and [proxies] are the instance dictionary of the connection
    object, split by what an attribute holds (a value, or one of the two
    endpoint handles); [assigned] lists the attribute assignments made so
    far, oldest first. [server] is the state of the remote side, [sent] the
    requests made through a proxy so far, oldest first (a request is listed
    when the call is made, whatever the proxy then does with it), [logged]
    the messages given to [logger.error]. *)

Record state : Type := {
  fields : gmap string value;
  proxies : gmap string proxy;
  assigned : list string;
  server : remote;
  sent : list request;
  logged : list string
}.

(** Computations: a result or an exception, and the state left behind. *)
Definition M (A : Type) : Type := state -> (exn + A) * state.

Definition ret {A} (a : A) : M A := fun s => (inr a, s).

Definition raise {A} (e : exn) : M A := fun s => (inl e, s).

Definition bind {A B} (m : M A) (k : A -> M B) : M B :=
  fun s =>
    match m s with
    | (inr a, s') => k a s'
    | (inl e, s') => (inl e, s')
    end.

#[export] Instance M_ret : MRet M := @ret.
#[export] Instance M_bind : MBind M := fun A B k m => bind m k.

(** [try: body / except xmlrpc.client.Fault as err: handler]. *)
Definition try_except_Fault {A} (body : M A) (handler : exn -> M A) : M A :=
  fun s =>
    match body s with
    | (inl e, s') => if is_Fault e then handler e s' else (inl e, s')
    | r => r
    end.

Definition lift {A} (r : exn + A) : M A :=
  match r with
  | inl e => raise e
  | inr a => ret a
  end.

(** [self.name = v] for a value. *)
Definition setattr (name : string) (v : value) : M unit :=
  fun s =>
    (inr tt,
     {| fields := <[name := v]> (fields s);
        proxies := delete name (proxies s);
        assigned := assigned s ++ [name];
        server := server s; sent := sent s; logged := logged s |}).

(** [self.name = p] for an endpoint handle. *)
Definition setattr_proxy (name : string) (p : proxy) : M unit :=
  fun s =>
    (inr tt,
     {| fields := delete name (fields s);
        proxies := <[name := p]> (proxies s);
        assigned := assigned s ++ [name];
        server := server s; sent := sent s; logged := logged s |}).

(** [self.name], read as a value. *)
Definition getattr (name : string) : M value :=
  fun s =>
    match fields s !! name with
    | Some v => (inr v, s)
    | None => (inl (AttributeError name), s)
    end.

(** [self.name], read as an endpoint handle. *)
Definition getattr_proxy (name : string) : M proxy :=
  fun s =>
    match proxies s !! name with
    | Some p => (inr p, s)
    | None => (inl (AttributeError name), s)
    end.

(** [xmlrpc.client.ServerProxy(u)]. *)
Definition ServerProxy (u : string) : M proxy :=
  match ServerProxy_check u with
  | Some e => raise e
  | None => ret {| uri := u |}
  end.

(** [p.method( *args )]: one request through the transport. *)
Definition call (p : proxy) (method : string) (args : list value) : M value :=
  fun s =>
    let req := {| endpoint := uri p; rpc_method := method; params := args |} in
    let '(answer, srv) := transport (server s) req in
    (answer,
     {| fields := fields s; proxies := proxies s; assigned := assigned s;
        server := srv; sent := sent s ++ [req]; logged := logged s |}).

(** [logger.error(msg)]. *)
Definition logger_error (msg : string) : M unit :=
  fun s =>
    (inr tt,
     {| fields := fields s; proxies := proxies s; assigned := assigned s;
        server := server s; sent := sent s; logged := logged s ++ [msg] |}).

(** ** class OdooConn *)

Definition __init__ (config : gmap string value) : M unit :=
  setattr "hostname" (dict_get config "hostname");;
  setattr "port" (dict_get config "port");;
  setattr "schema" (dict_get config "schema");;
  setattr "database" (dict_get config "database");;
  setattr "username" (dict_get config "username");;
  setattr "password" (dict_get config "password");;
  setattr "url" (dict_get config "url");;
  url ← getattr "url";
  common ← ServerProxy (py_str url +:+ "/xmlrpc/2/common");
  setattr_proxy "common" common;;
  url ← getattr "url";
  models ← ServerProxy (py_str url +:+ "/xmlrpc/2/object");
  setattr_proxy "models" models;;
  common ← getattr_proxy "common";
  database ← getattr "database";
  username ← getattr "username";
  password ← getattr "password";
  uid ← call common "authenticate" [database; username; password; VDict []];
  setattr "uid" uid.

(** [self.models.execute_kw(self.database, self.uid, self.password, model,
    method, args)], with [kwargs] as a seventh parameter when one is
    given: the call every method makes. *)
Definition models_execute_kw (model method args : value) (kwargs : option value)
  : M value :=
  models ← getattr_proxy "models";
  database ← getattr "database";
  uid ← getattr "uid";
  password ← getattr "password";
  call models "execute_kw"
    ([database; uid; password; model; method; args] ++ option_list kwargs).

Definition create (model values : value) : M value :=
  try_except_Fault
    (models_execute_kw model (VStr "create") (VList [values]) None)
    (fun err =>
       msg ← lift (str_format "err={} model={} values={}"
                     [exn_str err; py_str model; py_str values]);
       logger_error msg;;
       mret VNone).

Definition load (model header values : value) : M value :=
  try_except_Fault
    (models_execute_kw model (VStr "load")
       (VList [VList [header]; VList [values]]) None)
    (fun err =>
       msg ← lift (str_format "err={} model={} values={}"
                     [exn_str err; py_str model; py_str values]);
       logger_error msg;;
       mret VNone).

Definition count (model domain limit : value) : M value :=
  models_execute_kw model (VStr "search_count") domain
    (Some (VDict [("limit", limit)])).

Definition fields_get (model attributes : value) : M value :=
  if negb (truthy attributes) then
    models_execute_kw model (VStr "fields_get") (VList []) None
  else
    models_execute_kw model (VStr "fields_get") (VList [])
      (Some (VDict [("attributes", attributes)])).

Definition get_id (model domain : value) : M value :=
  id ← models_execute_kw model (VStr "search") domain
         (Some (VDict [("limit", VInt 1)]));
  if truthy id then lift (subscript0 id) else mret (VInt (-1)).

Definition search (model domain : value) : M value :=
  models_execute_kw model (VStr "search") domain None.

Definition read (model ids fields : value) : M value :=
  models_execute_kw model (VStr "read") (VList [ids])
    (Some (VDict [("fields", fields)])).

Definition search_read (model domain offset limit fields : value) : M value :=
  try_except_Fault
    (models_execute_kw model (VStr "search_read") domain
       (Some (VDict [("offset", offset); ("limit", limit); ("fields", fields)])))
    (fun err =>
       msg ← lift (str_format "err={} model={} values={}"
                     [exn_str err; py_str model]);
       logger_error msg;;
       mret VNone).

Definition write (model id values : value) : M value :=
  try_except_Fault
    (models_execute_kw model (VStr "write") (VList [VList [id]; values]) None)
    (fun err =>
       msg ← lift (str_format "err={} model={} id={} values={}"
                     [exn_str err; py_str model; py_str id; py_str values]);
       logger_error msg;;
       mret VNone).

Definition unlink (model ids : value) : M value :=
  models_execute_kw model (VStr "unlink") (VList [ids]) None.

Definition execute (model method args : value) : M value :=
  models_execute_kw model method args None.

Definition execute_kw (model method args kwargs : value) : M value :=
  models_execute_kw model method args (Some kwargs).

(** The default values of the optional parameters. *)
Definition count_limit_default : value := VInt 0.
Definition search_read_offset_default : value := VInt 0.
Definition search_read_limit_default : value := VInt 0.
Definition search_read_fields_default : value := VList [].

(** ** The operations of a connection, as a caller invokes them *)

Inductive operation : Type :=
| Create (model values : value)
| Load (model header values : value)
| Count (model domain limit : value)
| FieldsGet (model attributes : value)
| GetId (model domain : value)
| Search (model domain : value)
| Read (model ids fields : value)
| SearchRead (model domain offset limit fields : value)
| Write (model id values : value)
| Unlink (model ids : value)
| Execute (model method args : value)
| ExecuteKw (model method args kwargs : value).

Definition invoke (op : operation) : M value :=
  match op with
  | Create model values => create model values
  | Load model header values => load model header values
  | Count model domain limit => count model domain limit
  | FieldsGet model attributes => fields_get model attributes
  | GetId model domain => get_id model domain
  | Search model domain => search model domain
  | Read model ids fields => read model ids fields
  | SearchRead model domain offset limit fields =>
      search_read model domain offset limit fields
  | Write model id values => write model id values
  | Unlink model ids => unlink model ids
  | Execute model method args => execute model method args
  | ExecuteKw model method args kwargs => execute_kw model method args kwargs
  end.

Definition op_model (op : operation) : value :=
  match op with
  | Create model _ | Load model _ _ | Count model _ _ | FieldsGet model _
  | GetId model _ | Search model _ | Read model _ _
  | SearchRead model _ _ _ _ | Write model _ _ | Unlink model _
  | Execute model _ _ | ExecuteKw model _ _ _ => model
  end.

(** The method name, the positional arguments and the keyword arguments
    each operation hands to [execute_kw], read off the twelve call sites. *)
Definition op_call (op : operation) : value * value * option value :=
  match op with
  | Create _ values => (VStr "create", VList [values], None)
  | Load _ header values =>
      (VStr "load", VList [VList [header]; VList [values]], None)
  | Count _ domain limit =>
      (VStr "search_count", domain, Some (VDict [("limit", limit)]))
  | FieldsGet _ attributes =>
      (VStr "fields_get", VList [],
       if truthy attributes then Some (VDict [("attributes", attributes)])
       else None)
  | GetId _ domain => (VStr "search", domain, Some (VDict [("limit", VInt 1)]))
  | Search _ domain => (VStr "search", domain, None)
  | Read _ ids fields =>
      (VStr "read", VList [ids], Some (VDict [("fields", fields)]))
  | SearchRead _ domain offset limit fields =>
      (VStr "search_read", domain,
       Some (VDict [("offset", offset); ("limit", limit); ("fields", fields)]))
  | Write _ id values => (VStr "write", VList [VList [id]; values], None)
  | Unlink _ ids => (VStr "unlink", VList [ids], None)
  | Execute _ method args => (method, args, None)
  | ExecuteKw _ method args kwargs => (method, args, Some kwargs)
  end.

(** The operations whose body is wrapped in [try/except Fault]. *)
Definition guarded (op : operation) : bool :=
  match op with
  | Create _ _ | Load _ _ _ | SearchRead _ _ _ _ _ | Write _ _ _ => true
  | _ => false
  end.

End Model.

(** The caller runs operations one after the other, whether one returns or
    raises (the state an exception leaves behind is the state the next
    operation starts from). *)
Fixpoint run_all {rt : Runtime} (ops : list operation) (s : state) : state :=
  match ops with
  | [] => s
  | op :: rest => run_all rest (invoke op s).2
  end.

(** The attribute names, in the order the constructor assigns them. *)
Definition required_options : list string :=
  ["hostname"; "port"; "schema"; "database"; "username"; "password"; "url"].

Definition constructor_assignments : list string :=
  required_options ++ ["common"; "models"; "uid"].

(** The two endpoints and the authentication request of a configuration. *)
Definition common_uri {rt : Runtime} (config : gmap string value) : string :=
  py_str (dict_get config "url") +:+ "/xmlrpc/2/common".

Definition object_uri {rt : Runtime} (config : gmap string value) : string :=
  py_str (dict_get config "url") +:+ "/xmlrpc/2/object".

Definition authenticate_request {rt : Runtime} (config : gmap string value)
  : request :=
  {| endpoint := common_uri config;
     rpc_method := "authenticate";
     params := [dict_get config "database"; dict_get config "username";
                dict_get config "password"; VDict []] |}.

(** The [execute_kw] request of a connection with the given handle and
    credentials. *)
Definition execute_kw_request (p : proxy) (database uid password : value)
    (model method args : value) (kwargs : option value) : request :=
  {| endpoint := uri p;
     rpc_method := "execute_kw";
     params := [database; uid; password; model; method; args]
               ++ option_list kwargs |}.

Definition op_request {rt : Runtime} (p : proxy) (database uid password : value)
    (op : operation) : request :=
  let '(method, args, kwargs) := op_call op in
  execute_kw_request p database uid password (op_model op) method args kwargs.

(** A state in which the connection object holds the object endpoint handle
    and the three credentials every call passes on. *)
Definition connected {rt : Runtime} (s : state) (p : proxy)
    (database uid password : value) : Prop :=
  proxies s !! "models" = Some p /\
  fields s !! "database" = Some database /\
  fields s !! "uid" = Some uid /\
  fields s !! "password" = Some password.

(** The session identifier is truthy. *)
Definition authenticated {rt : Runtime} (s : state) : bool :=
  match fields s !! "uid" with
  | Some uid => truthy uid
  | None => false
  end.

(** The positional-arguments parameter (the sixth) of the last request
    sent. *)
Definition last_positional_args {rt : Runtime} (s : state) : option value :=
  match last (sent s) with
  | Some req => params req !! 5%nat
  | None => None
  end.

(** The keyword-arguments parameter (the seventh) of the last request sent,
    when it has one. *)
Definition last_keyword_args {rt : Runtime} (s : state) : option value :=
  match last (sent s) with
  | Some req => params req !! 6%nat
  | None => None
  end.

(** [outer] is [inner] inside one more enclosing list. *)
Definition one_layer_more (outer inner : option value) : Prop :=
  exists v, inner = Some v /\ outer = Some (VList [v]).

(** ** A scripted runtime for examples

    The remote side answers the requests it receives with the next entry of
    a script, whatever the request, and refuses service once the script is
    used up. [ServerProxy] accepts the two URI schemes the library accepts.
    [demo_str] is [str] on the scalars the examples print; containers are
    shown by a placeholder. *)

Definition demo_str (v : value) : string :=
  match v with
  | VNone => "None"
  | VBool true => "True"
  | VBool false => "False"
  | VInt n => pretty n
  | VStr s => s
  | VList _ => "[...]"
  | VDict _ => "{...}"
  end.

Definition demo_exn_str (e : exn) : string :=
  match e with
  | Fault code msg => "<Fault " +:+ demo_str code +:+ ": '" +:+ demo_str msg +:+ "'>"
  | ProtocolError _ msg | OSError msg | IndexError msg | TypeError msg => msg
  | KeyError key => demo_str key
  | AttributeError name => name
  end.

Definition demo_check (u : string) : option exn :=
  if String.prefix "http://" u || String.prefix "https://" u then None
  else Some (OSError "unsupported XML-RPC protocol").

Definition demo_transport (script : list (exn + value)) (req : request)
  : (exn + value) * list (exn + value) :=
  match script with
  | [] => (inl (ProtocolError 503 "Service Unavailable"), [])
  | answer :: rest => (answer, rest)
  end.

Definition demo_runtime : Runtime :=
  {| remote := list (exn + value);
     transport := demo_transport;
     ServerProxy_check := demo_check;
     py_str := demo_str;
     exn_str := demo_exn_str |}.

(** A fresh object before its constructor runs, facing a scripted server. *)
Definition demo_fresh (script : list (exn + value)) : @state demo_runtime :=
  @Build_state demo_runtime ∅ ∅ [] script [] [].

Definition demo_config : gmap string value :=
  <["hostname" := VStr "localhost"]>
  (<["port" := VInt 8069]>
  (<["schema" := VStr "http"]>
  (<["database" := VStr "odoo"]>
  (<["username" := VStr "admin"]>
  (<["password" := VStr "secret"]>
  (<["url" := VStr "http://localhost:8069"]> ∅)))))).

(** The same configuration without the three options that only describe
    the URL. *)
Definition demo_config_url_only : gmap string value :=
  delete "hostname" (delete "port" (delete "schema" demo_config)).

(** The connection the constructor builds from [demo_config] when the server
    answers the authentication with the session identifier 2 and then
    follows [script]. *)
Definition demo_connection (script : list (exn + value)) : @state demo_runtime :=
  (@__init__ demo_runtime demo_config (demo_fresh (inr (VInt 2) :: script))).2.

Definition demo_fault : exn := Fault (VInt 1) (VStr "Access Denied").

(** The domain of the docstrings: [[[["name", "=", "ZExample1"]]]]. *)
Definition demo_domain : value :=
  VList [VList [VList [VStr "name"; VStr "="; VStr "ZExample1"]]].

(** Whether construction from [config] returns and leaves an authenticated
    connection, and whether [config] lacks one of the options. *)
Definition constructs {rt : Runtime} (config : gmap string value) (s : state)
  : bool :=
  match __init__ config s with
  | (inr _, s') => authenticated s'
  | (inl _, _) => false
  end.

Definition lacks_option (config : gmap string value) : bool :=
  existsb (fun k => bool_decide (config !! k = None)) required_options.

(** ** What the XML-RPC library refuses

    [xmlrpc.client] is not part of the module; two of its refusals decide
    what a configuration without an option leads to. The marshaller of a
    proxy built without [allow_none] raises on a parameter list that holds
    [None], before anything is transmitted: the call raises an exception
    that is no [Fault], and the remote side is where it was. *)

Definition is_None (v : value) : bool :=
  match v with
  | VNone => true
  | _ => false
  end.

Definition marshaller_refuses_None {rt : Runtime} : Prop :=
  forall r req,
    existsb is_None (params req) = true ->
    exists e, transport r req = (inl e, r) /\ is_Fault e = false.

(** The three options that are parameters of the authentication request. *)
Definition credential_options : list string :=
  ["database"; "username"; "password"].

(** The scripted runtime with such a marshaller in front of the script. *)
Definition strict_transport (script : list (exn + value)) (req : request)
  : (exn + value) * list (exn + value) :=
  if existsb is_None (params req)
  then (inl (TypeError "cannot marshal None unless allow_none is enabled"),
        script)
  else demo_transport script req.

Definition strict_runtime : Runtime :=
  {| remote := list (exn + value);
     transport := strict_transport;
     ServerProxy_check := demo_check;
     py_str := demo_str;
     exn_str := demo_exn_str |}.

Definition strict_fresh (script : list (exn + value)) : @state strict_runtime :=
  @Build_state strict_runtime ∅ ∅ [] script [] [].

(** * Properties *)

Section Properties.
Context {rt : Runtime}.

Implicit Types (s : state) (p : proxy) (op : operation) (e : exn).
Implicit Types (model method args domain database uid password : value).

Ltac unfold_monad :=
  unfold mbind, mret, M_bind, M_ret, bind, ret, raise in *.

Tactic Notation "proj" :=
  cbn [fields proxies assigned server sent logged fst snd].
Tactic Notation "proj" "in" hyp(H) :=
  cbn [fields proxies assigned server sent logged fst snd] in H.

Tactic Notation "lookup_attr" :=
  repeat first
    [ rewrite lookup_insert_eq
    | rewrite lookup_insert_ne by done
    | rewrite lookup_delete_ne by done ].
Tactic Notation "lookup_attr" "in" hyp(H) :=
  repeat first
    [ rewrite lookup_insert_eq in H
    | rewrite lookup_insert_ne in H by done
    | rewrite lookup_delete_ne in H by done ].

(** ** Frames

    A computation respects a preorder on states when the state it leaves
    is related to the state it started from. Two preorders are used:
    [same_object] (the connection object is untouched) and [same_traffic]
    (nothing was sent and the remote side is where it was). *)

Section Frames.
Variable rel : state -> state -> Prop.
Hypothesis rel_refl : forall s, rel s s.
Hypothesis rel_trans : forall s1 s2 s3, rel s1 s2 -> rel s2 s3 -> rel s1 s3.

Definition respects {A} (m : M A) : Prop := forall s, rel s (m s).2.

Lemma respects_ret {A} (a : A) : respects (mret a).
Proof. intros s. apply rel_refl. Qed.

Lemma respects_raise {A} e : respects (@raise _ A e).
Proof. intros s. apply rel_refl. Qed.

Lemma respects_lift {A} (r : exn + A) : respects (lift r).
Proof. destruct r; intros s; apply rel_refl. Qed.

Lemma respects_getattr name : respects (getattr name).
Proof.
  intros s. unfold getattr. destruct (fields s !! name); apply rel_refl.
Qed.

Lemma respects_getattr_proxy name : respects (getattr_proxy name).
Proof.
  intros s. unfold getattr_proxy. destruct (proxies s !! name); apply rel_refl.
Qed.

(** What follows a computation in a [bind] or handles its fault adds a
    related step to the state the computation left. *)
Lemma after_bind {A B} (m : M A) (k : A -> M B) s :
  (forall a, respects (k a)) -> rel (m s).2 ((m ≫= k) s).2.
Proof.
  intros Hk. unfold_monad.
  destruct (m s) as [[e | a] s']; simpl; [apply rel_refl | apply Hk].
Qed.

Lemma after_try {A} (body : M A) handler s :
  (forall e, respects (handler e)) ->
  rel (body s).2 (try_except_Fault body handler s).2.
Proof.
  intros Hh. unfold try_except_Fault.
  destruct (body s) as [[e | a] s']; simpl; [| apply rel_refl].
  destruct (is_Fault e); [apply Hh | apply rel_refl].
Qed.

Lemma respects_bind {A B} (m : M A) (k : A -> M B) :
  respects m -> (forall a, respects (k a)) -> respects (m ≫= k).
Proof.
  intros Hm Hk s. eapply rel_trans; [apply Hm | apply after_bind, Hk].
Qed.

Lemma respects_try {A} (body : M A) handler :
  respects body -> (forall e, respects (handler e)) ->
  respects (try_except_Fault body handler).
Proof.
  intros Hb Hh s. eapply rel_trans; [apply Hb | apply after_try, Hh].
Qed.

End Frames.

Definition same_object s s' : Prop :=
  fields s' = fields s /\ proxies s' = proxies s /\ assigned s' = assigned s.

Definition same_traffic s s' : Prop :=
  sent s' = sent s /\ server s' = server s.

Lemma same_object_refl s : same_object s s.
Proof. repeat split. Qed.

Lemma same_object_trans s1 s2 s3 :
  same_object s1 s2 -> same_object s2 s3 -> same_object s1 s3.
Proof. intros (Hf & Hp & Ha) (Hf' & Hp' & Ha'). repeat split; congruence. Qed.

Lemma same_traffic_refl s : same_traffic s s.
Proof. split; reflexivity. Qed.

Lemma same_traffic_trans s1 s2 s3 :
  same_traffic s1 s2 -> same_traffic s2 s3 -> same_traffic s1 s3.
Proof. intros (Hs & Hr) (Hs' & Hr'). split; congruence. Qed.

Abbreviation preserves := (respects same_object).
Abbreviation quiet := (respects same_traffic).

Lemma call_run p name params_ s :
  let req := {| endpoint := uri p; rpc_method := name; params := params_ |} in
  call p name params_ s =
    ((transport (server s) req).1,
     {| fields := fields s; proxies := proxies s; assigned := assigned s;
        server := (transport (server s) req).2;
        sent := sent s ++ [req]; logged := logged s |}).
Proof.
  intros req. unfold call. fold req.
  destruct (transport (server s) req) as [answer srv]. reflexivity.
Qed.

Lemma preserves_call p name params_ : preserves (call p name params_).
Proof. intros s. rewrite call_run. repeat split. Qed.

Lemma preserves_logger_error msg : preserves (logger_error msg).
Proof. intros s. repeat split. Qed.

Lemma quiet_logger_error msg : quiet (logger_error msg).
Proof. intros s. split; reflexivity. Qed.

(** Closes a [respects] goal by walking through the computation. *)
Ltac frame :=
  repeat first
    [ exact same_object_refl | exact same_object_trans
    | exact same_traffic_refl | exact same_traffic_trans
    | apply preserves_call | apply preserves_logger_error
    | apply quiet_logger_error
    | apply respects_ret | apply respects_raise | apply respects_lift
    | apply respects_getattr | apply respects_getattr_proxy
    | apply respects_bind; [ | | | intros ?]
    | apply respects_try; [ | | | intros ?] ].

Lemma preserves_models_execute_kw model method args kwargs :
  preserves (models_execute_kw model method args kwargs).
Proof. unfold models_execute_kw. frame. Qed.

(** No method assigns to an attribute of [self]. *)
Lemma preserves_invoke op : preserves (invoke op).
Proof.
  destruct op; simpl;
    unfold create, load, count, fields_get, get_id, search, read, search_read,
      write, unlink, execute, execute_kw;
    try (destruct (negb (truthy attributes)));
    frame; try apply preserves_models_execute_kw.
  destruct (truthy a); frame.
Qed.

Lemma run_all_same_object ops s : same_object s (run_all ops s).
Proof.
  revert s. induction ops as [| op ops IH]; intros s; simpl.
  - apply same_object_refl.
  - eapply same_object_trans; [apply preserves_invoke | apply IH].
Qed.

Lemma connected_same_object s s' p database uid password :
  same_object s s' ->
  connected s p database uid password -> connected s' p database uid password.
Proof.
  intros (Hf & Hp & _) (H1 & H2 & H3 & H4).
  unfold connected. rewrite Hf, Hp. auto.
Qed.

(** ** The call every method makes *)

Lemma models_execute_kw_run s p database uid password model method args kwargs :
  connected s p database uid password ->
  models_execute_kw model method args kwargs s =
    call p "execute_kw"
      ([database; uid; password; model; method; args] ++ option_list kwargs) s.
Proof.
  intros (Hp & Hd & Hu & Hw).
  unfold models_execute_kw, getattr_proxy, getattr. unfold_monad.
  rewrite Hp, Hd, Hu, Hw. reflexivity.
Qed.

(** On a connected state it sends exactly the request
    [execute_kw_request] describes and returns the transport's answer. *)
Lemma models_execute_kw_sends s p database uid password model method args kwargs :
  connected s p database uid password ->
  let req := execute_kw_request p database uid password model method args kwargs in
  let r := models_execute_kw model method args kwargs s in
  r.1 = (transport (server s) req).1 /\
  sent r.2 = sent s ++ [req] /\
  server r.2 = (transport (server s) req).2 /\
  logged r.2 = logged s.
Proof.
  intros Hc req r. subst r.
  rewrite (models_execute_kw_run _ _ _ _ _ _ _ _ _ Hc), call_run.
  simpl. repeat split; reflexivity.
Qed.

(** Every operation on a connected state sends exactly one request, the
    one [op_request] describes. *)
Lemma invoke_sends_one op s p database uid password :
  connected s p database uid password ->
  let req := op_request p database uid password op in
  sent (invoke op s).2 = sent s ++ [req] /\
  server (invoke op s).2 = (transport (server s) req).2.
Proof.
  intros Hc.
  assert (Hplain : forall model method args kwargs,
    let req := execute_kw_request p database uid password model method args kwargs in
    let r := models_execute_kw model method args kwargs s in
    sent r.2 = sent s ++ [req] /\ server r.2 = (transport (server s) req).2).
  { intros model method args kwargs.
    destruct (models_execute_kw_sends s p database uid password
                model method args kwargs Hc) as (_ & Hs & Hr & _).
    split; assumption. }
  assert (Htry : forall (body : M value) handler,
    (forall e, quiet (handler e)) ->
    sent (try_except_Fault body handler s).2 = sent (body s).2 /\
    server (try_except_Fault body handler s).2 = server (body s).2).
  { intros body handler Hq.
    exact (after_try same_traffic same_traffic_refl body handler s Hq). }
  destruct op; unfold op_request, op_call, op_model; simpl invoke;
    unfold create, load, count, fields_get, get_id, search, read, search_read,
      write, unlink, execute, execute_kw;
    try apply Hplain;
    try (match goal with |- context [try_except_Fault ?b ?h] =>
           destruct (Htry b h) as [-> ->]; [intros e; frame | apply Hplain]
         end).
  - destruct (truthy attributes); simpl negb; cbv iota; apply Hplain.
  - match goal with |- context [(?m ≫= ?k) s] =>
      destruct (after_bind same_traffic same_traffic_refl m k s) as [-> ->];
        [intros id; destruct (truthy id); frame | apply Hplain] end.
Qed.

(** ** The constructor *)

(** What [__init__ config] leaves behind when it returns, given the session
    identifier [uid] the server answered with and the server state [srv]
    after the answer. *)
Definition init_post (config : gmap string value) s0 uid (srv : remote) s1
  : Prop :=
  (forall k, k ∈ required_options -> fields s1 !! k = Some (dict_get config k)) /\
  fields s1 !! "uid" = Some uid /\
  proxies s1 !! "common" = Some {| uri := common_uri config |} /\
  proxies s1 !! "models" = Some {| uri := object_uri config |} /\
  assigned s1 = assigned s0 ++ constructor_assignments /\
  sent s1 = sent s0 ++ [authenticate_request config] /\
  server s1 = srv /\
  logged s1 = logged s0.

(** The outcome of the constructor, by what [ServerProxy] says of the two
    URIs and what the transport answers to the authentication request: it
    raises exactly what one of these raises, and returns otherwise. *)
Lemma init_cases config s0 r :
  __init__ config s0 = r ->
  match ServerProxy_check (common_uri config),
        ServerProxy_check (object_uri config),
        transport (server s0) (authenticate_request config) with
  | None, None, (inr uid, srv) => r.1 = inr tt /\ init_post config s0 uid srv r.2
  | None, None, (inl e, _) => r.1 = inl e
  | None, Some e, _ => r.1 = inl e
  | Some e, _, _ => r.1 = inl e
  end.
Proof.
  intros Hr.
  unfold authenticate_request, common_uri, object_uri.
  unfold __init__ in Hr. unfold_monad.
  unfold setattr at 1 2 3 4 5 6 7 in Hr. proj in Hr.
  unfold getattr at 1 in Hr. proj in Hr. lookup_attr in Hr. cbv beta iota in Hr.
  unfold ServerProxy at 1 in Hr. unfold_monad.
  destruct (ServerProxy_check (_ +:+ "/xmlrpc/2/common")) as [e |];
    [subst r; reflexivity |].
  unfold setattr_proxy at 1 in Hr. proj in Hr.
  unfold getattr at 1 in Hr. proj in Hr. lookup_attr in Hr. cbv beta iota in Hr.
  unfold ServerProxy at 1 in Hr. unfold_monad.
  destruct (ServerProxy_check (_ +:+ "/xmlrpc/2/object")) as [e |];
    [subst r; reflexivity |].
  unfold setattr_proxy at 1 in Hr. proj in Hr.
  unfold getattr_proxy in Hr. proj in Hr. lookup_attr in Hr. cbv beta iota in Hr.
  do 3 (unfold getattr at 1 in Hr; proj in Hr; lookup_attr in Hr;
        cbv beta iota in Hr).
  rewrite call_run in Hr. proj in Hr. cbv beta iota zeta in Hr. proj in Hr.
  destruct (transport _ _) as [[e | uid] srv]; proj in Hr;
    [subst r; reflexivity |].
  unfold setattr in Hr. proj in Hr. subst r. proj.
  split; [reflexivity |].
  unfold init_post, constructor_assignments, required_options. proj.
  repeat split.
  - intros k Hk.
    repeat (apply elem_of_cons in Hk as [-> | Hk]); lookup_attr;
      try reflexivity.
    apply elem_of_nil in Hk. destruct Hk.
  - lookup_attr. reflexivity.
  - lookup_attr. reflexivity.
  - lookup_attr. reflexivity.
  - rewrite <- !app_assoc. reflexivity.
Qed.

(** When the constructor returns, the authentication request was answered
    with a value, and that value is the stored session identifier. *)
Lemma init_returned config s0 s1 :
  __init__ config s0 = (inr tt, s1) ->
  exists uid,
    transport (server s0) (authenticate_request config) = (inr uid, server s1) /\
    init_post config s0 uid (server s1) s1.
Proof.
  intros Hr. pose proof (init_cases config s0 _ Hr) as H.
  destruct (ServerProxy_check (common_uri config)); [discriminate H |].
  destruct (ServerProxy_check (object_uri config)); [discriminate H |].
  destruct (transport (server s0) (authenticate_request config))
    as [[e | uid] srv]; [discriminate H |].
  destruct H as [_ Hpost]. simpl in Hpost.
  exists uid.
  assert (Hsrv : server s1 = srv) by apply Hpost.
  rewrite Hsrv. split; [reflexivity | exact Hpost].
Qed.

(** The constructor returns whenever [ServerProxy] accepts both URIs and
    the authentication request is answered with a value. *)
Lemma init_returns config s0 uid srv :
  ServerProxy_check (common_uri config) = None ->
  ServerProxy_check (object_uri config) = None ->
  transport (server s0) (authenticate_request config) = (inr uid, srv) ->
  exists s1, __init__ config s0 = (inr tt, s1) /\ init_post config s0 uid srv s1.
Proof.
  intros Hc Ho Ha. pose proof (init_cases config s0 _ eq_refl) as H.
  rewrite Hc, Ho, Ha in H. destruct H as [Hres Hpost].
  exists (__init__ config s0).2. split; [| exact Hpost].
  destruct (__init__ config s0) as [res s1]. simpl in Hres. subst res.
  reflexivity.
Qed.

Lemma init_post_connected config s0 uid srv s1 :
  init_post config s0 uid srv s1 ->
  connected s1 {| uri := object_uri config |}
    (dict_get config "database") uid (dict_get config "password").
Proof.
  intros (Hk & Hu & _ & Hm & _).
  unfold connected. repeat split; try assumption;
    apply Hk; unfold required_options; set_solver.
Qed.

(** ** Answers and exceptions *)

Lemma models_execute_kw_answer s p database uid password model method args kwargs
    answer srv :
  connected s p database uid password ->
  transport (server s)
    (execute_kw_request p database uid password model method args kwargs)
    = (answer, srv) ->
  models_execute_kw model method args kwargs s =
    (answer,
     {| fields := fields s; proxies := proxies s; assigned := assigned s;
        server := srv;
        sent := sent s ++ [execute_kw_request p database uid password
                             model method args kwargs];
        logged := logged s |}).
Proof.
  intros Hc Ht. rewrite (models_execute_kw_run _ _ _ _ _ _ _ _ _ Hc), call_run.
  unfold execute_kw_request in Ht. cbv zeta. rewrite Ht. reflexivity.
Qed.

(** The templates of [create], [load] and [write] are given as many
    arguments as they have fields. *)
Lemma str_format_three a b c :
  exists msg, str_format "err={} model={} values={}" [a; b; c] = inr msg.
Proof. eexists. reflexivity. Qed.

Lemma str_format_four a b c d :
  exists msg,
    str_format "err={} model={} id={} values={}" [a; b; c; d] = inr msg.
Proof. eexists. reflexivity. Qed.

(** The template of [search_read]'s handler has three fields and is given
    two arguments. *)
Lemma str_format_short a b :
  str_format "err={} model={} values={}" [a; b] = inl (replacement_index_error 2).
Proof. reflexivity. Qed.

(** Unfolds an operation down to its [execute_kw] call and runs the call
    with the transport's answer [Ht] on the connected state [Hc]. *)
Ltac run_invoke Hc Ht :=
  unfold op_request in Ht; cbn [op_call op_model] in Ht; cbv beta iota in Ht;
  cbn [invoke];
  unfold create, load, count, fields_get, get_id, search, read, search_read,
    write, unlink, execute, execute_kw;
  unfold try_except_Fault; unfold_monad;
  rewrite (models_execute_kw_answer _ _ _ _ _ _ _ _ _ _ _ Hc Ht);
  cbn [is_Fault fst snd logged].

(** An operation without [try/except] lets every exception of the call
    through, a [Fault] included, and logs nothing. *)
Lemma unguarded_raises op s p database uid password e srv :
  connected s p database uid password ->
  guarded op = false ->
  transport (server s) (op_request p database uid password op) = (inl e, srv) ->
  (invoke op s).1 = inl e /\ logged (invoke op s).2 = logged s.
Proof.
  intros Hc Hg Ht.
  destruct op; try discriminate Hg;
    try (run_invoke Hc Ht; split; reflexivity).
  unfold op_request in Ht. cbn [op_call op_model invoke] in Ht |- *.
  unfold fields_get.
  destruct (truthy attributes); cbn [negb]; cbv beta iota in Ht |- *;
    rewrite (models_execute_kw_answer _ _ _ _ _ _ _ _ _ _ _ Hc Ht);
    split; reflexivity.
Qed.

(** An operation with [try/except Fault] lets every other exception
    through and logs nothing. *)
Lemma guarded_raises_other op s p database uid password e srv :
  connected s p database uid password ->
  is_Fault e = false ->
  transport (server s) (op_request p database uid password op) = (inl e, srv) ->
  (invoke op s).1 = inl e /\ logged (invoke op s).2 = logged s.
Proof.
  intros Hc He Ht.
  destruct (guarded op) eqn:Hg; [| eapply unguarded_raises; eassumption].
  destruct op; try discriminate Hg;
    run_invoke Hc Ht; rewrite He; split; reflexivity.
Qed.

(** [create], [load] and [write] turn a [Fault] into one logged message
    and the result [None]. *)
Definition answers_fault_with_None (op : operation) : bool :=
  match op with
  | Create _ _ | Load _ _ _ | Write _ _ _ => true
  | _ => false
  end.

Lemma fault_logged_and_absent op s p database uid password code text srv :
  connected s p database uid password ->
  answers_fault_with_None op = true ->
  transport (server s) (op_request p database uid password op)
    = (inl (Fault code text), srv) ->
  (invoke op s).1 = inr VNone /\
  exists msg, logged (invoke op s).2 = logged s ++ [msg].
Proof.
  intros Hc Ha Ht.
  destruct op; try discriminate Ha; run_invoke Hc Ht; unfold lift;
    match goal with
    | |- context [str_format _ [?a; ?b; ?c]] =>
        destruct (str_format_three a b c) as [msg ->]
    | |- context [str_format _ [?a; ?b; ?c; ?d]] =>
        destruct (str_format_four a b c d) as [msg ->]
    end;
    unfold_monad; (split; [reflexivity | exists msg; reflexivity]).
Qed.

(** [search_read] catches the [Fault], and its handler raises [IndexError]
    while building the message: nothing is logged and nothing returned. *)
Lemma search_read_fault s p database uid password model domain offset limit flds
    code text srv :
  connected s p database uid password ->
  transport (server s)
    (op_request p database uid password
       (SearchRead model domain offset limit flds))
    = (inl (Fault code text), srv) ->
  (search_read model domain offset limit flds s).1
    = inl (replacement_index_error 2) /\
  logged (search_read model domain offset limit flds s).2 = logged s.
Proof.
  intros Hc Ht.
  change (search_read model domain offset limit flds)
    with (invoke (SearchRead model domain offset limit flds)).
  run_invoke Hc Ht. unfold lift. rewrite str_format_short. unfold_monad.
  split; reflexivity.
Qed.

(** ** Sequences of operations *)

(** The requests a sequence of operations sends on a connected state: one
    per operation, in order, each with the same handle and credentials. *)
Lemma run_all_requests ops s p database uid password :
  connected s p database uid password ->
  sent (run_all ops s) = sent s ++ map (op_request p database uid password) ops.
Proof.
  revert s. induction ops as [| op ops IH]; intros s Hc; simpl.
  - rewrite app_nil_r. reflexivity.
  - rewrite IH.
    + destruct (invoke_sends_one op s p database uid password Hc) as [-> _].
      rewrite <- app_assoc. reflexivity.
    + eapply connected_same_object; [apply preserves_invoke | exact Hc].
Qed.

Lemma last_snoc_request s (l : list request) req :
  sent s = l ++ [req] ->
  last_positional_args s = params req !! 5%nat /\
  last_keyword_args s = params req !! 6%nat.
Proof.
  intros Hs. unfold last_positional_args, last_keyword_args.
  rewrite Hs, last_snoc. split; reflexivity.
Qed.

(** No value is the one-element list of itself. *)
Lemma not_own_singleton (v : value) : v <> VList [v].
Proof.
  intros Heq. apply (f_equal depth) in Heq. simpl in Heq.
  induction (depth v) as [| n IH]; [discriminate Heq |].
  apply IH. injection Heq as Heq. exact Heq.
Qed.

(** * The claims *)

(** C1. [get_id] sends a search limited to one result. When the answer is a
    list of identifiers, it returns the first identifier of the list, and
    it returns -1 when the list is empty; it raises in neither case. *)
Theorem get_id_first_match_or_sentinel s p database uid password model domain
    ids srv :
  connected s p database uid password ->
  transport (server s)
    (execute_kw_request p database uid password model (VStr "search") domain
       (Some (VDict [("limit", VInt 1)])))
    = (inr (VList ids), srv) ->
  (get_id model domain s).1 = inr (default (VInt (-1)) (head ids)) /\
  (ids = [] -> (get_id model domain s).1 = inr (VInt (-1))) /\
  sent (get_id model domain s).2
    = sent s ++ [execute_kw_request p database uid password model
                   (VStr "search") domain (Some (VDict [("limit", VInt 1)]))].
Proof.
  intros Hc Ht.
  assert (Hres : (get_id model domain s).1 = inr (default (VInt (-1)) (head ids))).
  { unfold get_id. unfold_monad.
    rewrite (models_execute_kw_answer _ _ _ _ _ _ _ _ _ _ _ Hc Ht).
    destruct ids as [| first rest]; reflexivity. }
  split; [exact Hres |]. split.
  - intros ->. exact Hres.
  - apply (invoke_sends_one (GetId model domain) s p database uid password Hc).
Qed.

(** C4. [load] passes [[[header], [values]]] as the positional arguments of
    the remote [load] method: the header and the rows, each inside a list of
    its own. *)
Theorem load_wraps_header_and_rows s p database uid password model header values :
  connected s p database uid password ->
  sent (load model header values s).2
    = sent s ++ [execute_kw_request p database uid password model (VStr "load")
                   (VList [VList [header]; VList [values]]) None] /\
  last_positional_args (load model header values s).2
    = Some (VList [VList [header]; VList [values]]).
Proof.
  intros Hc.
  destruct (invoke_sends_one (Load model header values) s p database uid
              password Hc) as [Hs _].
  split; [exact Hs |].
  apply last_snoc_request in Hs as [Hs _]. exact Hs.
Qed.

(** C6. [fields_get] with the empty list of attributes sends the request
    without keyword arguments (six parameters), and with a non-empty list
    it passes that list as the keyword argument [attributes]. *)
Theorem fields_get_attributes_keyword s p database uid password model attributes :
  connected s p database uid password ->
  sent (fields_get model (VList attributes) s).2
    = sent s ++ [execute_kw_request p database uid password model
                   (VStr "fields_get") (VList [])
                   (match attributes with
                    | [] => None
                    | _ :: _ => Some (VDict [("attributes", VList attributes)])
                    end)] /\
  last_keyword_args (fields_get model (VList attributes) s).2
    = match attributes with
      | [] => None
      | _ :: _ => Some (VDict [("attributes", VList attributes)])
      end.
Proof.
  intros Hc.
  destruct (invoke_sends_one (FieldsGet model (VList attributes)) s p database
              uid password Hc) as [Hs _].
  unfold op_request in Hs. cbn [op_call op_model invoke] in Hs.
  assert (Hkw : (if truthy (VList attributes)
                 then Some (VDict [("attributes", VList attributes)])
                 else None)
                = match attributes with
                  | [] => None
                  | _ :: _ => Some (VDict [("attributes", VList attributes)])
                  end) by (destruct attributes; reflexivity).
  rewrite Hkw in Hs. split; [exact Hs |].
  apply last_snoc_request in Hs as [_ Hs]. rewrite Hs.
  destruct attributes; reflexivity.
Qed.

(** The constructor reads its argument through [dict_get] on the seven
    options only. *)
Lemma init_ext config config' :
  (forall k, k ∈ required_options -> dict_get config' k = dict_get config k) ->
  __init__ config' = __init__ config.
Proof.
  intros Hk. unfold __init__.
  rewrite !Hk by (unfold required_options; set_solver).
  reflexivity.
Qed.

(** C5. After construction, every operation sends one request to the object
    endpoint, calling [execute_kw] with the parameters (database, session
    identifier, password, model, method, positional arguments and, for some,
    keyword arguments); database and password are the values read from the
    configuration and stored by the constructor, and the session identifier
    is the answer to the authentication request that the constructor
    stored. This holds after any sequence of earlier operations. *)
Theorem operations_send_stored_envelope config s0 s1 ops op :
  __init__ config s0 = (inr tt, s1) ->
  exists uid method args kwargs,
    transport (server s0) (authenticate_request config) = (inr uid, server s1) /\
    fields s1 !! "database" = Some (dict_get config "database") /\
    fields s1 !! "uid" = Some uid /\
    fields s1 !! "password" = Some (dict_get config "password") /\
    sent (invoke op (run_all ops s1)).2
      = sent (run_all ops s1)
        ++ [{| endpoint := object_uri config;
               rpc_method := "execute_kw";
               params := [dict_get config "database"; uid;
                          dict_get config "password"; op_model op; method; args]
                         ++ option_list kwargs |}].
Proof.
  intros Hinit.
  destruct (init_returned config s0 s1 Hinit) as (uid & Hauth & Hpost).
  pose proof (init_post_connected _ _ _ _ _ Hpost) as Hc.
  pose proof (connected_same_object _ _ _ _ _ _
                (run_all_same_object ops s1) Hc) as Hc'.
  destruct (invoke_sends_one op _ _ _ _ _ Hc') as [Hsent _].
  unfold op_request in Hsent.
  destruct (op_call op) as [[method args] kwargs].
  exists uid, method, args, kwargs.
  destruct Hc as (_ & Hd & Hu & Hw).
  repeat split; assumption.
Qed.

(** C7. The constructor assigns each of its ten attributes once (the seven
    configuration values, the two endpoint handles and the session
    identifier), and no sequence of operations run afterwards, whether they
    return or raise, assigns to any attribute: the attributes keep the
    values the constructor gave them. *)
Theorem connection_written_once_at_construction config s0 s1 ops :
  __init__ config s0 = (inr tt, s1) ->
  assigned s1 = assigned s0 ++ constructor_assignments /\
  NoDup constructor_assignments /\
  assigned (run_all ops s1) = assigned s1 /\
  fields (run_all ops s1) = fields s1 /\
  proxies (run_all ops s1) = proxies s1 /\
  (forall k, k ∈ required_options ->
             fields (run_all ops s1) !! k = Some (dict_get config k)) /\
  exists uid,
    transport (server s0) (authenticate_request config) = (inr uid, server s1) /\
    fields (run_all ops s1) !! "uid" = Some uid.
Proof.
  intros Hinit.
  destruct (init_returned config s0 s1 Hinit) as (uid & Hauth & Hpost).
  destruct (run_all_same_object ops s1) as (Hf & Hp & Ha).
  destruct Hpost as (Hk & Hu & _ & _ & Hassigned & _).
  split; [exact Hassigned |]. split.
  { apply (bool_decide_unpack (NoDup constructor_assignments)).
    vm_compute. exact I. }
  split; [exact Ha |]. split; [exact Hf |]. split; [exact Hp |]. split.
  - intros k Hin. rewrite Hf. apply Hk, Hin.
  - exists uid. rewrite Hf. split; assumption.
Qed.

(** C3, as amended. [count], [get_id], [search] and [search_read] all hand
    the domain they are given to [execute_kw] as it is, in the place of the
    positional arguments: the four pass the same value, and none of the
    first three passes it inside one more list than [search_read] does. *)
Theorem domain_passed_alike s p database uid password model domain limit offset
    flds :
  connected s p database uid password ->
  let by_search_read :=
    last_positional_args (search_read model domain offset limit flds s).2 in
  by_search_read = Some domain /\
  last_positional_args (count model domain limit s).2 = by_search_read /\
  last_positional_args (get_id model domain s).2 = by_search_read /\
  last_positional_args (search model domain s).2 = by_search_read /\
  ~ one_layer_more (last_positional_args (count model domain limit s).2)
      by_search_read.
Proof.
  intros Hc by_search_read.
  assert (Hop : forall op, (op_call op).1.2 = domain ->
                last_positional_args (invoke op s).2 = Some domain).
  { intros op Hdom.
    destruct (invoke_sends_one op s p database uid password Hc) as [Hs _].
    apply last_snoc_request in Hs as [-> _].
    unfold op_request. destruct (op_call op) as [[method args] kwargs].
    simpl in Hdom. subst args. reflexivity. }
  assert (Hsr : by_search_read = Some domain)
    by exact (Hop (SearchRead model domain offset limit flds) eq_refl).
  assert (Hcount : last_positional_args (count model domain limit s).2
                   = Some domain)
    by exact (Hop (Count model domain limit) eq_refl).
  rewrite Hsr, Hcount. repeat split.
  - exact (Hop (GetId model domain) eq_refl).
  - exact (Hop (Search model domain) eq_refl).
  - intros (v & Hinner & Houter).
    injection Hinner as <-. injection Houter as Houter.
    exact (not_own_singleton domain Houter).
Qed.

(** C2, at the failing input. A [Fault] raised by the call of [search_read]
    is caught, but the handler gives [str.format] two arguments for three
    fields: the operation raises [IndexError], and logs nothing. *)
Theorem search_read_fault_raises_IndexError s p database uid password model
    domain offset limit flds code text srv :
  connected s p database uid password ->
  transport (server s)
    (op_request p database uid password
       (SearchRead model domain offset limit flds))
    = (inl (Fault code text), srv) ->
  (invoke (SearchRead model domain offset limit flds) s).1
    = inl (replacement_index_error 2) /\
  logged (invoke (SearchRead model domain offset limit flds) s).2 = logged s.
Proof.
  intros Hc Ht. exact (search_read_fault _ _ _ _ _ _ _ _ _ _ _ _ _ Hc Ht).
Qed.

(** C10, at the failing input. When the call of [search_read] raises a
    [Fault], the operation does not return [None]: it raises an exception,
    and not the [Fault] it caught. *)
Theorem search_read_fault_not_absent s p database uid password model domain
    offset limit flds code text srv :
  connected s p database uid password ->
  transport (server s)
    (op_request p database uid password
       (SearchRead model domain offset limit flds))
    = (inl (Fault code text), srv) ->
  (search_read model domain offset limit flds s).1 <> inr VNone /\
  exists e, (search_read model domain offset limit flds s).1 = inl e /\
            is_Fault e = false.
Proof.
  intros Hc Ht.
  destruct (search_read_fault _ _ _ _ _ _ _ _ _ _ _ _ _ Hc Ht) as [Hres _].
  rewrite Hres. split; [discriminate |].
  eexists. split; reflexivity.
Qed.

(** X1. In [create], [load] and [write] a [Fault] raised by the call is
    caught: one message is logged and the operation returns [None]. *)
Theorem create_load_write_swallow_fault op s p database uid password code text
    srv :
  connected s p database uid password ->
  answers_fault_with_None op = true ->
  transport (server s) (op_request p database uid password op)
    = (inl (Fault code text), srv) ->
  (invoke op s).1 = inr VNone /\
  exists msg, logged (invoke op s).2 = logged s ++ [msg].
Proof.
  intros Hc Ha Ht.
  exact (fault_logged_and_absent _ _ _ _ _ _ _ _ _ Hc Ha Ht).
Qed.

(** X2. An exception other than [Fault] raised by the call leaves every
    operation as it is, the four with [try/except] included, and nothing is
    logged. *)
Theorem other_exceptions_propagate op s p database uid password e srv :
  connected s p database uid password ->
  is_Fault e = false ->
  transport (server s) (op_request p database uid password op) = (inl e, srv) ->
  (invoke op s).1 = inl e /\ logged (invoke op s).2 = logged s.
Proof.
  intros Hc He Ht.
  exact (guarded_raises_other _ _ _ _ _ _ _ _ Hc He Ht).
Qed.

(** X3. In the eight operations without [try/except] ([count],
    [fields_get], [get_id], [search], [read], [unlink], [execute],
    [execute_kw]) a [Fault] raised by the call reaches the caller. *)
Theorem fault_propagates_from_unguarded op s p database uid password code text
    srv :
  connected s p database uid password ->
  guarded op = false ->
  transport (server s) (op_request p database uid password op)
    = (inl (Fault code text), srv) ->
  (invoke op s).1 = inl (Fault code text).
Proof.
  intros Hc Hg Ht.
  exact (proj1 (unguarded_raises _ _ _ _ _ _ _ _ Hc Hg Ht)).
Qed.

(** * Further properties of the methods *)

(** ** Answers *)

Definition is_get_id (op : operation) : bool :=
  match op with
  | GetId _ _ => true
  | _ => false
  end.

(** X4. Every operation but [get_id] returns the answer of its call as it
    is, whatever the value, and logs nothing. *)
Theorem answer_passed_through op s p database uid password answer srv :
  connected s p database uid password ->
  is_get_id op = false ->
  transport (server s) (op_request p database uid password op)
    = (inr answer, srv) ->
  (invoke op s).1 = inr answer /\ logged (invoke op s).2 = logged s.
Proof.
  intros Hc Hg Ht.
  destruct op; try discriminate Hg;
    try (run_invoke Hc Ht; split; reflexivity).
  unfold op_request in Ht. cbn [op_call op_model invoke] in Ht |- *.
  unfold fields_get.
  destruct (truthy attributes); cbn [negb]; cbv beta iota in Ht |- *;
    rewrite (models_execute_kw_answer _ _ _ _ _ _ _ _ _ _ _ Hc Ht);
    split; reflexivity.
Qed.

(** X5. [get_id] returns -1 for every falsy answer to its search, not only
    for the empty list: [None], [False], [0], the empty string and the
    empty dictionary give -1 as well. *)
Theorem get_id_falsy_answer_is_sentinel s p database uid password model domain
    answer srv :
  connected s p database uid password ->
  transport (server s) (op_request p database uid password (GetId model domain))
    = (inr answer, srv) ->
  truthy answer = false ->
  (get_id model domain s).1 = inr (VInt (-1)) /\
  logged (get_id model domain s).2 = logged s.
Proof.
  intros Hc Ht Hfalsy.
  change (get_id model domain) with (invoke (GetId model domain)).
  run_invoke Hc Ht. rewrite Hfalsy. split; reflexivity.
Qed.

(** X6. When the search of [get_id] is answered with a number other than
    0, or with [True], the subscript [id[0]] raises [TypeError]: the
    operation raises instead of returning an identifier or -1. *)
Theorem get_id_scalar_answer_raises s p database uid password model domain
    answer srv :
  connected s p database uid password ->
  transport (server s) (op_request p database uid password (GetId model domain))
    = (inr answer, srv) ->
  answer = VBool true \/ (exists n, answer = VInt n /\ n <> 0) ->
  exists msg, (get_id model domain s).1 = inl (TypeError msg).
Proof.
  intros Hc Ht Hscalar.
  change (get_id model domain) with (invoke (GetId model domain)).
  run_invoke Hc Ht.
  destruct Hscalar as [-> | (n & -> & Hn)]; cbn [truthy].
  - eexists. reflexivity.
  - apply Z.eqb_neq in Hn. rewrite Hn. eexists. reflexivity.
Qed.

(** ** The typed methods and the two generic ones *)

(** The call of [execute] or [execute_kw] that carries the method name and
    the arguments of an operation. *)
Definition generic_call (op : operation) : M value :=
  let '(method, args, kwargs) := op_call op in
  match kwargs with
  | None => execute (op_model op) method args
  | Some kw => execute_kw (op_model op) method args kw
  end.

(** X7. In every state, a typed method without [try/except], [get_id]
    apart, is the generic call with its method name and arguments; a method
    with [try/except] is that call too whenever the call does not raise a
    [Fault]. *)
Theorem typed_methods_are_generic_calls op s :
  is_get_id op = false ->
  (guarded op = true -> forall code text,
     (generic_call op s).1 <> inl (Fault code text)) ->
  invoke op s = generic_call op s.
Proof.
  intros Hg Hfault.
  destruct op; try discriminate Hg; unfold generic_call in *;
    cbn [op_call op_model invoke] in *;
    unfold create, load, count, fields_get, search, read, search_read, write,
      unlink, execute, execute_kw in *;
    try reflexivity;
    try (specialize (Hfault eq_refl); unfold try_except_Fault;
         match goal with
         | |- context [models_execute_kw ?a ?b ?c ?d s] =>
             destruct (models_execute_kw a b c d s) as [[e | v] s']
         end;
         [| reflexivity];
         destruct e; try reflexivity;
         exfalso; exact (Hfault _ _ eq_refl)).
  destruct (truthy attributes); reflexivity.
Qed.

(** ** What is logged *)

Definition same_log s s' : Prop := logged s' = logged s.

Lemma same_log_refl s : same_log s s.
Proof. reflexivity. Qed.

Lemma same_log_trans s1 s2 s3 : same_log s1 s2 -> same_log s2 s3 -> same_log s1 s3.
Proof. unfold same_log. congruence. Qed.

Lemma silent_models_execute_kw model method args kwargs :
  respects same_log (models_execute_kw model method args kwargs).
Proof.
  unfold models_execute_kw.
  repeat first
    [ apply respects_getattr | apply respects_getattr_proxy
    | exact same_log_refl | exact same_log_trans
    | apply respects_bind; [ | | | intros ?] ].
  intros s. rewrite call_run. reflexivity.
Qed.

(** X8. The eight methods without [try/except] never log, in any state and
    whatever the call does. *)
Theorem unguarded_methods_never_log op s :
  guarded op = false -> logged (invoke op s).2 = logged s.
Proof.
  intros Hg.
  destruct op; try discriminate Hg; cbn [invoke];
    unfold count, fields_get, get_id, search, read, unlink, execute, execute_kw;
    try apply silent_models_execute_kw.
  - destruct (negb (truthy attributes)); apply silent_models_execute_kw.
  - apply (respects_bind same_log same_log_refl same_log_trans);
      [apply silent_models_execute_kw |].
    intros id. destruct (truthy id).
    + apply respects_lift, same_log_refl.
    + apply respects_ret, same_log_refl.
Qed.

Lemma append_empty (a : string) : a +:+ "" = a.
Proof.
  induction a as [| c a IH]; [reflexivity |].
  change (String c (a +:+ "") = String c a). rewrite IH. reflexivity.
Qed.

Lemma str_format_three_text a b c :
  str_format "err={} model={} values={}" [a; b; c]
  = inr ("err=" +:+ a +:+ " model=" +:+ b +:+ " values=" +:+ c).
Proof.
  transitivity
    (@inr exn string
       ("err=" +:+ a +:+ " model=" +:+ b +:+ " values=" +:+ c +:+ ""));
    [reflexivity | rewrite append_empty; reflexivity].
Qed.

Lemma str_format_four_text a b c d :
  str_format "err={} model={} id={} values={}" [a; b; c; d]
  = inr ("err=" +:+ a +:+ " model=" +:+ b +:+ " id=" +:+ c
         +:+ " values=" +:+ d).
Proof.
  transitivity
    (@inr exn string
       ("err=" +:+ a +:+ " model=" +:+ b +:+ " id=" +:+ c
        +:+ " values=" +:+ d +:+ ""));
    [reflexivity | rewrite append_empty; reflexivity].
Qed.

(** X9. The message logged for a caught [Fault]: [create] and [load] log
    the exception, the model and [values] (for [load] the rows, not the
    header); [write] logs the identifier as well. *)
Theorem fault_messages s p database uid password code text :
  connected s p database uid password ->
  (forall model values srv,
     transport (server s)
       (op_request p database uid password (Create model values))
       = (inl (Fault code text), srv) ->
     logged (create model values s).2
     = logged s ++ ["err=" +:+ exn_str (Fault code text)
                    +:+ " model=" +:+ py_str model
                    +:+ " values=" +:+ py_str values]) /\
  (forall model header values srv,
     transport (server s)
       (op_request p database uid password (Load model header values))
       = (inl (Fault code text), srv) ->
     logged (load model header values s).2
     = logged s ++ ["err=" +:+ exn_str (Fault code text)
                    +:+ " model=" +:+ py_str model
                    +:+ " values=" +:+ py_str values]) /\
  (forall model id values srv,
     transport (server s)
       (op_request p database uid password (Write model id values))
       = (inl (Fault code text), srv) ->
     logged (write model id values s).2
     = logged s ++ ["err=" +:+ exn_str (Fault code text)
                    +:+ " model=" +:+ py_str model
                    +:+ " id=" +:+ py_str id
                    +:+ " values=" +:+ py_str values]).
Proof.
  intros Hc. repeat split.
  - intros model values srv Ht.
    change (create model values) with (invoke (Create model values)).
    run_invoke Hc Ht. rewrite str_format_three_text. reflexivity.
  - intros model header values srv Ht.
    change (load model header values) with (invoke (Load model header values)).
    run_invoke Hc Ht. rewrite str_format_three_text. reflexivity.
  - intros model id values srv Ht.
    change (write model id values) with (invoke (Write model id values)).
    run_invoke Hc Ht. rewrite str_format_four_text. reflexivity.
Qed.

(** ** The shapes of the other requests *)

(** X10. [write] takes one identifier and sends it inside a list, followed
    by the values: the positional arguments are [[[id], values]], with no
    keyword arguments. *)
Theorem write_wraps_id_in_list s p database uid password model id values :
  connected s p database uid password ->
  sent (write model id values s).2
    = sent s ++ [execute_kw_request p database uid password model (VStr "write")
                   (VList [VList [id]; values]) None] /\
  last_positional_args (write model id values s).2
    = Some (VList [VList [id]; values]).
Proof.
  intros Hc.
  destruct (invoke_sends_one (Write model id values) s p database uid password
              Hc) as [Hs _].
  split; [exact Hs |].
  apply last_snoc_request in Hs as [Hs _]. exact Hs.
Qed.

(** X11. [read] sends the list of identifiers as the one positional
    argument and the field names as the keyword argument [fields]. *)
Theorem read_passes_ids_and_fields s p database uid password model ids flds :
  connected s p database uid password ->
  last_positional_args (read model ids flds s).2 = Some (VList [ids]) /\
  last_keyword_args (read model ids flds s).2
    = Some (VDict [("fields", flds)]).
Proof.
  intros Hc.
  destruct (invoke_sends_one (Read model ids flds) s p database uid password
              Hc) as [Hs _].
  apply last_snoc_request in Hs as [Hargs Hkw]. split; assumption.
Qed.

(** X12. [search_read] sends the domain as the positional arguments and
    [offset], [limit] and [fields] as keyword arguments, in this order. *)
Theorem search_read_passes_paging_keywords s p database uid password model
    domain offset limit flds :
  connected s p database uid password ->
  sent (search_read model domain offset limit flds s).2
    = sent s ++ [execute_kw_request p database uid password model
                   (VStr "search_read") domain
                   (Some (VDict [("offset", offset); ("limit", limit);
                                 ("fields", flds)]))].
Proof.
  intros Hc.
  exact (proj1 (invoke_sends_one (SearchRead model domain offset limit flds)
                  s p database uid password Hc)).
Qed.

(** X13. [count] calls the remote method [search_count] and passes its
    limit as the keyword argument [limit], whatever the limit is (the
    default 0 included). *)
Theorem count_passes_limit_keyword s p database uid password model domain limit :
  connected s p database uid password ->
  sent (count model domain limit s).2
    = sent s ++ [execute_kw_request p database uid password model
                   (VStr "search_count") domain
                   (Some (VDict [("limit", limit)]))].
Proof.
  intros Hc.
  exact (proj1 (invoke_sends_one (Count model domain limit)
                  s p database uid password Hc)).
Qed.

(** X14. [create] sends its values and [unlink] its list of identifiers as
    the one positional argument, without keyword arguments. *)
Theorem create_and_unlink_wrap_argument s p database uid password model x :
  connected s p database uid password ->
  sent (create model x s).2
    = sent s ++ [execute_kw_request p database uid password model
                   (VStr "create") (VList [x]) None] /\
  sent (unlink model x s).2
    = sent s ++ [execute_kw_request p database uid password model
                   (VStr "unlink") (VList [x]) None].
Proof.
  intros Hc. split.
  - exact (proj1 (invoke_sends_one (Create model x) s p database uid password
                    Hc)).
  - exact (proj1 (invoke_sends_one (Unlink model x) s p database uid password
                    Hc)).
Qed.

(** X15. [fields_get] decides by the truth value of [attributes]: every
    falsy value ([None], the empty list, the empty string, 0) sends the
    request with six parameters and no keyword arguments, every truthy
    value is sent as the keyword argument [attributes]. *)
Theorem fields_get_keyword_iff_truthy s p database uid password model attributes :
  connected s p database uid password ->
  (truthy attributes = false ->
   sent (fields_get model attributes s).2
     = sent s ++ [execute_kw_request p database uid password model
                    (VStr "fields_get") (VList []) None]) /\
  (truthy attributes = true ->
   sent (fields_get model attributes s).2
     = sent s ++ [execute_kw_request p database uid password model
                    (VStr "fields_get") (VList [])
                    (Some (VDict [("attributes", attributes)]))]).
Proof.
  intros Hc.
  destruct (invoke_sends_one (FieldsGet model attributes) s p database uid
              password Hc) as [Hs _].
  unfold op_request in Hs. cbn [op_call op_model invoke] in Hs.
  split; intros Htruth; rewrite Htruth in Hs; exact Hs.
Qed.

(** X16. A sequence of operations on a connected state makes one
    [execute_kw] call on the proxy per operation, in the order of the
    operations, all on the same handle and with the same credentials: no
    call is repeated or left out, and none goes to the authentication
    endpoint. (What the proxy does with a call, up to refusing its
    parameters before transmitting, is the library's.) *)
Theorem requests_follow_operations ops s p database uid password :
  connected s p database uid password ->
  sent (run_all ops s)
    = sent s ++ map (op_request p database uid password) ops /\
  length (sent (run_all ops s)) = (length (sent s) + length ops)%nat /\
  connected (run_all ops s) p database uid password.
Proof.
  intros Hc.
  pose proof (run_all_requests ops s p database uid password Hc) as Hs.
  split; [exact Hs |]. split.
  - rewrite Hs, length_app, length_map. reflexivity.
  - eapply connected_same_object; [apply run_all_same_object | exact Hc].
Qed.

(** ** The constructor *)

(** X17. When the constructor returns, [ServerProxy] accepted both URIs,
    the handles stored are those of [url + "/xmlrpc/2/common"] and
    [url + "/xmlrpc/2/object"], one request was sent, the authentication
    with (database, username, password, {}) to the first of them, and
    nothing was logged. *)
Theorem constructor_authenticates_once config s0 s1 :
  __init__ config s0 = (inr tt, s1) ->
  ServerProxy_check (common_uri config) = None /\
  ServerProxy_check (object_uri config) = None /\
  proxies s1 !! "common" = Some {| uri := common_uri config |} /\
  proxies s1 !! "models" = Some {| uri := object_uri config |} /\
  sent s1
    = sent s0
      ++ [{| endpoint := py_str (dict_get config "url") +:+ "/xmlrpc/2/common";
             rpc_method := "authenticate";
             params := [dict_get config "database"; dict_get config "username";
                        dict_get config "password"; VDict []] |}] /\
  logged s1 = logged s0.
Proof.
  intros Hinit. pose proof (init_cases config s0 _ Hinit) as H.
  destruct (ServerProxy_check (common_uri config)); [discriminate H |].
  destruct (ServerProxy_check (object_uri config)); [discriminate H |].
  destruct (transport (server s0) (authenticate_request config))
    as [[e | uid] srv]; [discriminate H |].
  destruct H as (_ & _ & _ & Hcommon & Hmodels & _ & Hsent & _ & Hlog).
  simpl in *. repeat split; assumption.
Qed.

(** X18. The constructor catches nothing. If [ServerProxy] refuses a URI
    the constructor raises that exception, having made no call and left
    the remote side alone; if the one [authenticate] call it makes on the
    proxy raises (in the marshaller, in the transport or as a [Fault] of
    the server), the constructor raises that exception, makes no second
    call, and the remote side is as that call left it. In each case the
    configuration values were assigned before, and [uid] never is. *)
Theorem constructor_propagates_failure config s0 e :
  (__init__ config s0).1 = inl e ->
  (ServerProxy_check (common_uri config) = Some e /\
   sent (__init__ config s0).2 = sent s0 /\
   server (__init__ config s0).2 = server s0 /\
   assigned (__init__ config s0).2 = assigned s0 ++ required_options) \/
  (ServerProxy_check (common_uri config) = None /\
   ServerProxy_check (object_uri config) = Some e /\
   sent (__init__ config s0).2 = sent s0 /\
   server (__init__ config s0).2 = server s0 /\
   assigned (__init__ config s0).2
     = assigned s0 ++ required_options ++ ["common"]) \/
  (ServerProxy_check (common_uri config) = None /\
   ServerProxy_check (object_uri config) = None /\
   (transport (server s0) (authenticate_request config)).1 = inl e /\
   sent (__init__ config s0).2 = sent s0 ++ [authenticate_request config] /\
   server (__init__ config s0).2
     = (transport (server s0) (authenticate_request config)).2 /\
   assigned (__init__ config s0).2
     = assigned s0 ++ required_options ++ ["common"; "models"]).
Proof.
  remember (__init__ config s0) as r eqn:Hr. symmetry in Hr.
  intros He.
  unfold authenticate_request, common_uri, object_uri, required_options.
  unfold __init__ in Hr. unfold_monad.
  unfold setattr at 1 2 3 4 5 6 7 in Hr. proj in Hr.
  unfold getattr at 1 in Hr. proj in Hr. lookup_attr in Hr. cbv beta iota in Hr.
  unfold ServerProxy at 1 in Hr. unfold_monad.
  destruct (ServerProxy_check (_ +:+ "/xmlrpc/2/common")) as [e1 |].
  { subst r. proj in He. injection He as ->. left. proj.
    rewrite <- !app_assoc. repeat split; reflexivity. }
  unfold setattr_proxy at 1 in Hr. proj in Hr.
  unfold getattr at 1 in Hr. proj in Hr. lookup_attr in Hr. cbv beta iota in Hr.
  unfold ServerProxy at 1 in Hr. unfold_monad.
  destruct (ServerProxy_check (_ +:+ "/xmlrpc/2/object")) as [e2 |].
  { subst r. proj in He. injection He as ->. right. left. proj.
    rewrite <- !app_assoc. repeat split; reflexivity. }
  unfold setattr_proxy at 1 in Hr. proj in Hr.
  unfold getattr_proxy in Hr. proj in Hr. lookup_attr in Hr. cbv beta iota in Hr.
  do 3 (unfold getattr at 1 in Hr; proj in Hr; lookup_attr in Hr;
        cbv beta iota in Hr).
  rewrite call_run in Hr. proj in Hr. cbv beta iota zeta in Hr. proj in Hr.
  destruct (transport _ _) as [[e3 | uid] srv]; proj in Hr; subst r;
    proj in He; [| discriminate He].
  injection He as ->. right. right. proj.
  rewrite <- !app_assoc. repeat split; reflexivity.
Qed.

(** The remote side is driven by the requests alone: two connected states
    with the same handle and credentials that face the same server state
    leave the same server state after the same operations. *)
Lemma run_all_server ops s s' p database uid password :
  connected s p database uid password ->
  connected s' p database uid password ->
  server s' = server s ->
  server (run_all ops s') = server (run_all ops s).
Proof.
  revert s s'. induction ops as [| op ops IH]; intros s s' Hc Hc' Hsrv; simpl.
  - exact Hsrv.
  - apply IH.
    + eapply connected_same_object; [apply preserves_invoke | exact Hc].
    + eapply connected_same_object; [apply preserves_invoke | exact Hc'].
    + destruct (invoke_sends_one op s p database uid password Hc) as [_ ->].
      destruct (invoke_sends_one op s' p database uid password Hc') as [_ ->].
      rewrite Hsrv. reflexivity.
Qed.

(** The four options that reach the remote side. *)
Definition used_options : list string :=
  ["database"; "username"; "password"; "url"].

(** X19. [hostname], [port] and [schema] are stored and never used: when
    the constructor returns on a configuration, it returns on every
    configuration with the same [url], [database], [username] and
    [password], and the two connections send the same requests and leave
    the remote side in the same state, in construction and in every
    sequence of operations afterwards. *)
Theorem unused_options_do_not_matter config config' s0 s1 ops :
  (forall k, k ∈ used_options -> dict_get config' k = dict_get config k) ->
  __init__ config s0 = (inr tt, s1) ->
  exists s1',
    __init__ config' s0 = (inr tt, s1') /\
    sent (run_all ops s1') = sent (run_all ops s1) /\
    server (run_all ops s1') = server (run_all ops s1).
Proof.
  intros Hagree Hinit.
  assert (Hdb : dict_get config' "database" = dict_get config "database")
    by (apply Hagree; unfold used_options; set_solver).
  assert (Huser : dict_get config' "username" = dict_get config "username")
    by (apply Hagree; unfold used_options; set_solver).
  assert (Hpw : dict_get config' "password" = dict_get config "password")
    by (apply Hagree; unfold used_options; set_solver).
  assert (Hurl : dict_get config' "url" = dict_get config "url")
    by (apply Hagree; unfold used_options; set_solver).
  assert (Hcommon : common_uri config' = common_uri config)
    by (unfold common_uri; rewrite Hurl; reflexivity).
  assert (Hobject : object_uri config' = object_uri config)
    by (unfold object_uri; rewrite Hurl; reflexivity).
  assert (Hauth : authenticate_request config' = authenticate_request config)
    by (unfold authenticate_request; rewrite Hcommon, Hdb, Huser, Hpw;
        reflexivity).
  pose proof (init_cases config s0 _ Hinit) as H.
  destruct (ServerProxy_check (common_uri config)) eqn:Hc1; [discriminate H |].
  destruct (ServerProxy_check (object_uri config)) eqn:Hc2; [discriminate H |].
  destruct (transport (server s0) (authenticate_request config))
    as [[e | uid] srv] eqn:Ht; [discriminate H |].
  destruct H as [_ Hpost]. simpl in Hpost.
  destruct (init_returns config' s0 uid srv) as (s1' & Hinit' & Hpost').
  { rewrite Hcommon. exact Hc1. }
  { rewrite Hobject. exact Hc2. }
  { rewrite Hauth. exact Ht. }
  exists s1'. split; [exact Hinit' |].
  pose proof (init_post_connected _ _ _ _ _ Hpost) as Hconn.
  pose proof (init_post_connected _ _ _ _ _ Hpost') as Hconn'.
  rewrite Hobject, Hdb, Hpw in Hconn'.
  destruct Hpost as (_ & _ & _ & _ & _ & Hsent & Hsrv & _).
  destruct Hpost' as (_ & _ & _ & _ & _ & Hsent' & Hsrv' & _).
  split.
  - rewrite (run_all_requests ops s1' _ _ _ _ Hconn').
    rewrite (run_all_requests ops s1 _ _ _ _ Hconn).
    rewrite Hsent, Hsent', Hauth. reflexivity.
  - apply (run_all_server ops s1 s1' _ _ _ _ Hconn Hconn').
    rewrite Hsrv, Hsrv'. reflexivity.
Qed.

(** * The claims on authentication and on the options *)



(** C9, as amended. The constructor reads the seven options and no other
    key, each through [dict.get]: an option that is missing is read as
    [None], exactly as if the configuration held [None] for it, and the
    value read is stored as it is. It validates nothing itself: an
    exception of the constructor is one that [ServerProxy] raised for one
    of the two URIs or that the authentication call raised. [hostname],
    [port] and [schema] are not required: a configuration that differs in
    them only has the same outcome. [url], [database], [username] and
    [password] are required by the library, not by the constructor: where
    [ServerProxy] refuses the URI built from [None], a configuration
    without [url] makes the constructor raise that exception, and where the
    marshaller refuses [None], a configuration without [database],
    [username] or [password] makes the constructor raise. *)
Theorem constructor_reads_options_leniently config s0 :
  (forall config',
     (forall k, k ∈ required_options -> config' !! k = config !! k) ->
     __init__ config' s0 = __init__ config s0) /\
  (forall k, config !! k = None ->
             __init__ (<[k := VNone]> config) s0 = __init__ config s0) /\
  (forall s1, __init__ config s0 = (inr tt, s1) ->
     forall k, k ∈ required_options ->
               fields s1 !! k = Some (dict_get config k)) /\
  (forall e, (__init__ config s0).1 = inl e ->
     ServerProxy_check (common_uri config) = Some e \/
     ServerProxy_check (object_uri config) = Some e \/
     exists srv,
       transport (server s0) (authenticate_request config) = (inl e, srv)) /\
  (forall config',
     (forall k, k ∈ used_options -> dict_get config' k = dict_get config k) ->
     (__init__ config' s0).1 = (__init__ config s0).1) /\
  (forall e,
     ServerProxy_check (py_str VNone +:+ "/xmlrpc/2/common") = Some e ->
     config !! "url" = None ->
     (__init__ config s0).1 = inl e) /\
  (marshaller_refuses_None ->
   forall k, k ∈ credential_options -> config !! k = None ->
   exists e, (__init__ config s0).1 = inl e).
Proof.
  split; [| split; [| split; [| split; [| split; [| split]]]]].
  - intros config' Hagree. rewrite (init_ext config config'); [reflexivity |].
    intros k Hk. unfold dict_get. rewrite (Hagree k Hk). reflexivity.
  - intros k Hnone. rewrite (init_ext config (<[k := VNone]> config));
      [reflexivity |].
    intros k' _. unfold dict_get.
    destruct (decide (k = k')) as [<- | Hne].
    + rewrite lookup_insert_eq, Hnone. reflexivity.
    + rewrite lookup_insert_ne by exact Hne. reflexivity.
  - intros s1 Hinit k Hk.
    destruct (init_returned config s0 s1 Hinit) as (uid & _ & Hpost).
    apply Hpost, Hk.
  - intros e He. pose proof (init_cases config s0 _ eq_refl) as H.
    rewrite He in H.
    destruct (ServerProxy_check (common_uri config)) as [e1 |].
    { left. congruence. }
    destruct (ServerProxy_check (object_uri config)) as [e2 |].
    { right. left. congruence. }
    destruct (transport (server s0) (authenticate_request config))
      as [[e3 | uid] srv].
    + right. right. exists srv. congruence.
    + destruct H as [H _]. discriminate H.
  - intros config' Hagree.
    assert (Hdb : dict_get config' "database" = dict_get config "database")
      by (apply Hagree; unfold used_options; set_solver).
    assert (Huser : dict_get config' "username" = dict_get config "username")
      by (apply Hagree; unfold used_options; set_solver).
    assert (Hpw : dict_get config' "password" = dict_get config "password")
      by (apply Hagree; unfold used_options; set_solver).
    assert (Hurl : dict_get config' "url" = dict_get config "url")
      by (apply Hagree; unfold used_options; set_solver).
    pose proof (init_cases config s0 _ eq_refl) as H.
    pose proof (init_cases config' s0 _ eq_refl) as H'.
    unfold common_uri, object_uri, authenticate_request, common_uri in H, H'.
    rewrite Hurl, Hdb, Huser, Hpw in H'.
    destruct (ServerProxy_check (_ +:+ "/xmlrpc/2/common")); [congruence |].
    destruct (ServerProxy_check (_ +:+ "/xmlrpc/2/object")); [congruence |].
    destruct (transport _ _) as [[e | uid] srv]; [congruence |].
    destruct H as [H _]. destruct H' as [H' _]. congruence.
  - intros e Hcheck Hnone.
    pose proof (init_cases config s0 _ eq_refl) as H.
    unfold common_uri at 1 in H. unfold dict_get at 1 in H.
    rewrite Hnone in H. cbn [default] in H. rewrite Hcheck in H. exact H.
  - intros Hmarshal k Hk Hnone.
    assert (Hparams : existsb is_None (params (authenticate_request config))
                      = true).
    { unfold authenticate_request, credential_options in *. cbn [params existsb].
      assert (Hread : dict_get config k = VNone)
        by (unfold dict_get; rewrite Hnone; reflexivity).
      repeat (apply elem_of_cons in Hk as [-> | Hk]);
        try (rewrite Hread; cbn [is_None orb]; rewrite ?orb_true_r;
             reflexivity).
      apply elem_of_nil in Hk. destruct Hk. }
    destruct (Hmarshal (server s0) _ Hparams) as (e & Ht & _).
    pose proof (init_cases config s0 _ eq_refl) as H.
    rewrite Ht in H.
    destruct (ServerProxy_check (common_uri config)) as [e1 |];
      [exists e1; exact H |].
    destruct (ServerProxy_check (object_uri config)) as [e2 |];
      [exists e2; exact H |].
    exists e. exact H.
Qed.

End Properties.

(** * The claims on the scripted runtime *)

#[local] Existing Instance demo_runtime.

Definition demo_partner : value := VStr "res.partner".

Definition demo_values : value :=
  VDict [("name", VStr "ZExample1"); ("email", VStr "zexample1@example.com")].

(** The handle and the credentials of [demo_connection]. *)
Definition demo_models : proxy :=
  {| uri := "http://localhost:8069/xmlrpc/2/object" |}.

Lemma demo_connected script :
  @connected demo_runtime (demo_connection script) demo_models
    (VStr "odoo") (VInt 2) (VStr "secret").
Proof. unfold connected. repeat split; vm_compute; reflexivity. Defined.

Lemma get_id_first_match_or_sentinel_witness :
  (@get_id demo_runtime demo_partner demo_domain
     (demo_connection [inr (VList [VInt 7; VInt 9])])).1 = inr (VInt 7).
Proof.
  apply (get_id_first_match_or_sentinel (rt := demo_runtime)
           (demo_connection [inr (VList [VInt 7; VInt 9])]) demo_models
           (VStr "odoo") (VInt 2) (VStr "secret") demo_partner demo_domain
           [VInt 7; VInt 9] []).
  - apply demo_connected.
  - vm_compute. reflexivity.
Defined.

Example get_id_no_match :
  (@get_id demo_runtime demo_partner demo_domain
     (demo_connection [inr (VList [])])).1 = inr (VInt (-1)).
Proof. vm_compute. reflexivity. Qed.

Lemma load_wraps_header_and_rows_witness :
  @last_positional_args demo_runtime
    (load demo_partner (VList [VStr "name"; VStr "email"])
       (VList [VList [VStr "ZExample1"; VStr "zexample1@example.com"];
               VList [VStr "ZExample2"; VStr "zexample1@example.com"]])
       (demo_connection [inr (VDict [("ids", VList [VInt 11; VInt 12])])])).2
  = Some (VList
            [VList [VList [VStr "name"; VStr "email"]];
             VList [VList [VList [VStr "ZExample1"; VStr "zexample1@example.com"];
                           VList [VStr "ZExample2"; VStr "zexample1@example.com"]]]]).
Proof.
  apply (load_wraps_header_and_rows (rt := demo_runtime) _ demo_models
           (VStr "odoo") (VInt 2) (VStr "secret")).
  apply demo_connected.
Defined.

Lemma fields_get_attributes_keyword_witness :
  @last_keyword_args demo_runtime
    (fields_get demo_partner (VList [VStr "string"; VStr "help"; VStr "type"])
       (demo_connection [inr (VDict [])])).2
  = Some (VDict [("attributes", VList [VStr "string"; VStr "help"; VStr "type"])]).
Proof.
  apply (fields_get_attributes_keyword (rt := demo_runtime) _ demo_models
           (VStr "odoo") (VInt 2) (VStr "secret") demo_partner
           [VStr "string"; VStr "help"; VStr "type"]).
  apply demo_connected.
Defined.

Example fields_get_all_attributes :
  @last_keyword_args demo_runtime
    (fields_get demo_partner (VList []) (demo_connection [inr (VDict [])])).2
  = None.
Proof. vm_compute. reflexivity. Qed.

Lemma operations_send_stored_envelope_witness :
  exists uid method args kwargs,
    @transport demo_runtime (server (demo_fresh [inr (VInt 2); inr (VInt 41)]))
      (authenticate_request demo_config)
      = (inr uid, server (demo_connection [inr (VInt 41)])) /\
    fields (demo_connection [inr (VInt 41)]) !! "database"
      = Some (dict_get demo_config "database") /\
    fields (demo_connection [inr (VInt 41)]) !! "uid" = Some uid /\
    fields (demo_connection [inr (VInt 41)]) !! "password"
      = Some (dict_get demo_config "password") /\
    sent (invoke (Create demo_partner demo_values)
            (run_all [Search demo_partner demo_domain]
               (demo_connection [inr (VInt 41)]))).2
      = sent (run_all [Search demo_partner demo_domain]
                (demo_connection [inr (VInt 41)]))
        ++ [{| endpoint := object_uri demo_config;
               rpc_method := "execute_kw";
               params := [dict_get demo_config "database"; uid;
                          dict_get demo_config "password";
                          op_model (Create demo_partner demo_values);
                          method; args]
                         ++ option_list kwargs |}].
Proof.
  apply (operations_send_stored_envelope (rt := demo_runtime) demo_config
           (demo_fresh [inr (VInt 2); inr (VInt 41)])).
  vm_compute. reflexivity.
Defined.

Lemma connection_written_once_at_construction_witness :
  assigned (demo_connection [inl demo_fault; inr (VInt 5)])
    = assigned (demo_fresh [inr (VInt 2); inl demo_fault; inr (VInt 5)])
      ++ constructor_assignments /\
  NoDup constructor_assignments /\
  assigned (run_all [Create demo_partner demo_values;
                     Count demo_partner demo_domain (VInt 0)]
              (demo_connection [inl demo_fault; inr (VInt 5)]))
    = assigned (demo_connection [inl demo_fault; inr (VInt 5)]) /\
  fields (run_all [Create demo_partner demo_values;
                   Count demo_partner demo_domain (VInt 0)]
            (demo_connection [inl demo_fault; inr (VInt 5)]))
    = fields (demo_connection [inl demo_fault; inr (VInt 5)]) /\
  proxies (run_all [Create demo_partner demo_values;
                    Count demo_partner demo_domain (VInt 0)]
             (demo_connection [inl demo_fault; inr (VInt 5)]))
    = proxies (demo_connection [inl demo_fault; inr (VInt 5)]) /\
  (forall k, k ∈ required_options ->
     fields (run_all [Create demo_partner demo_values;
                      Count demo_partner demo_domain (VInt 0)]
               (demo_connection [inl demo_fault; inr (VInt 5)])) !! k
     = Some (dict_get demo_config k)) /\
  exists uid,
    @transport demo_runtime
      (server (demo_fresh [inr (VInt 2); inl demo_fault; inr (VInt 5)]))
      (authenticate_request demo_config)
      = (inr uid, server (demo_connection [inl demo_fault; inr (VInt 5)])) /\
    fields (run_all [Create demo_partner demo_values;
                     Count demo_partner demo_domain (VInt 0)]
              (demo_connection [inl demo_fault; inr (VInt 5)])) !! "uid"
    = Some uid.
Proof.
  apply (connection_written_once_at_construction (rt := demo_runtime)
           demo_config
           (demo_fresh [inr (VInt 2); inl demo_fault; inr (VInt 5)])).
  vm_compute. reflexivity.
Defined.

(** C9, as stated, fails: the configuration without [hostname], [port] and
    [schema] lacks three of the seven options, and the constructor returns
    on it with an authenticated connection, having sent the same
    authentication request as for the full configuration. *)
Lemma construction_without_three_options :
  lacks_option demo_config_url_only = true /\
  constructs demo_config_url_only (demo_fresh [inr (VInt 2)]) = true /\
  sent (__init__ demo_config_url_only (demo_fresh [inr (VInt 2)])).2
    = sent (demo_connection []) /\
  fields (__init__ demo_config_url_only (demo_fresh [inr (VInt 2)])).2
    !! "hostname" = Some VNone.
Proof. repeat split; vm_compute; reflexivity. Qed.

(** C3, as stated, fails: on the domain of the docstrings, [count],
    [get_id], [search] and [search_read] all send the domain itself as the
    positional arguments, so the first three do not send it inside one more
    list than [search_read]. *)
Lemma domain_sent_without_extra_layer :
  last_positional_args
    (count demo_partner demo_domain count_limit_default
       (demo_connection [inr (VInt 1)])).2
    = Some demo_domain /\
  last_positional_args
    (get_id demo_partner demo_domain (demo_connection [inr (VList [VInt 7])])).2
    = Some demo_domain /\
  last_positional_args
    (search demo_partner demo_domain (demo_connection [inr (VList [VInt 7])])).2
    = Some demo_domain /\
  last_positional_args
    (search_read demo_partner demo_domain search_read_offset_default
       search_read_limit_default search_read_fields_default
       (demo_connection [inr (VList [])])).2
    = Some demo_domain /\
  ~ one_layer_more
      (last_positional_args
         (count demo_partner demo_domain count_limit_default
            (demo_connection [inr (VInt 1)])).2)
      (last_positional_args
         (search_read demo_partner demo_domain search_read_offset_default
            search_read_limit_default search_read_fields_default
            (demo_connection [inr (VList [])])).2).
Proof.
  repeat split; try (vm_compute; reflexivity).
  intros (v & Hinner & Houter).
  vm_compute in Hinner. vm_compute in Houter.
  injection Hinner as <-. discriminate Houter.
Qed.

Lemma domain_passed_alike_witness :
  last_positional_args
    (search_read demo_partner demo_domain (VInt 0) (VInt 0) (VList [])
       (demo_connection [inr (VList [])])).2
    = Some demo_domain /\
  last_positional_args
    (count demo_partner demo_domain (VInt 0) (demo_connection [inr (VList [])])).2
    = last_positional_args
        (search_read demo_partner demo_domain (VInt 0) (VInt 0) (VList [])
           (demo_connection [inr (VList [])])).2 /\
  last_positional_args
    (get_id demo_partner demo_domain (demo_connection [inr (VList [])])).2
    = last_positional_args
        (search_read demo_partner demo_domain (VInt 0) (VInt 0) (VList [])
           (demo_connection [inr (VList [])])).2 /\
  last_positional_args
    (search demo_partner demo_domain (demo_connection [inr (VList [])])).2
    = last_positional_args
        (search_read demo_partner demo_domain (VInt 0) (VInt 0) (VList [])
           (demo_connection [inr (VList [])])).2 /\
  ~ one_layer_more
      (last_positional_args
         (count demo_partner demo_domain (VInt 0)
            (demo_connection [inr (VList [])])).2)
      (last_positional_args
         (search_read demo_partner demo_domain (VInt 0) (VInt 0) (VList [])
            (demo_connection [inr (VList [])])).2).
Proof.
  apply (domain_passed_alike (rt := demo_runtime)
           (demo_connection [inr (VList [])]) demo_models
           (VStr "odoo") (VInt 2) (VStr "secret")).
  apply demo_connected.
Defined.

Lemma search_read_fault_raises_IndexError_witness :
  (invoke (SearchRead demo_partner demo_domain search_read_offset_default
             search_read_limit_default search_read_fields_default)
     (demo_connection [inl demo_fault])).1
    = inl (replacement_index_error 2) /\
  logged
    (invoke (SearchRead demo_partner demo_domain search_read_offset_default
               search_read_limit_default search_read_fields_default)
       (demo_connection [inl demo_fault])).2
    = logged (demo_connection [inl demo_fault]).
Proof.
  apply (search_read_fault_raises_IndexError (rt := demo_runtime)
           (demo_connection [inl demo_fault]) demo_models
           (VStr "odoo") (VInt 2) (VStr "secret") demo_partner demo_domain
           search_read_offset_default search_read_limit_default
           search_read_fields_default (VInt 1) (VStr "Access Denied") []).
  - apply demo_connected.
  - vm_compute. reflexivity.
Defined.

Lemma search_read_fault_not_absent_witness :
  (search_read demo_partner demo_domain (VInt 0) (VInt 10) (VList [VStr "name"])
     (demo_connection [inl demo_fault])).1 <> inr VNone /\
  exists e,
    (search_read demo_partner demo_domain (VInt 0) (VInt 10) (VList [VStr "name"])
       (demo_connection [inl demo_fault])).1 = inl e /\
    is_Fault e = false.
Proof.
  apply (search_read_fault_not_absent (rt := demo_runtime)
           (demo_connection [inl demo_fault]) demo_models
           (VStr "odoo") (VInt 2) (VStr "secret") demo_partner demo_domain
           (VInt 0) (VInt 10) (VList [VStr "name"]) (VInt 1)
           (VStr "Access Denied") []).
  - apply demo_connected.
  - vm_compute. reflexivity.
Defined.

Lemma create_load_write_swallow_fault_witness :
  (invoke (Write demo_partner (VInt 3) demo_values)
     (demo_connection [inl demo_fault])).1 = inr VNone /\
  exists msg,
    logged (invoke (Write demo_partner (VInt 3) demo_values)
              (demo_connection [inl demo_fault])).2
    = logged (demo_connection [inl demo_fault]) ++ [msg].
Proof.
  apply (create_load_write_swallow_fault (rt := demo_runtime)
           (Write demo_partner (VInt 3) demo_values)
           (demo_connection [inl demo_fault]) demo_models
           (VStr "odoo") (VInt 2) (VStr "secret") (VInt 1)
           (VStr "Access Denied") []).
  - apply demo_connected.
  - reflexivity.
  - vm_compute. reflexivity.
Defined.

Lemma other_exceptions_propagate_witness :
  (invoke (Create demo_partner demo_values)
     (demo_connection [inl (ProtocolError 502 "Bad Gateway")])).1
    = inl (ProtocolError 502 "Bad Gateway") /\
  logged (invoke (Create demo_partner demo_values)
            (demo_connection [inl (ProtocolError 502 "Bad Gateway")])).2
    = logged (demo_connection [inl (ProtocolError 502 "Bad Gateway")]).
Proof.
  apply (other_exceptions_propagate (rt := demo_runtime)
           (Create demo_partner demo_values)
           (demo_connection [inl (ProtocolError 502 "Bad Gateway")]) demo_models
           (VStr "odoo") (VInt 2) (VStr "secret")
           (ProtocolError 502 "Bad Gateway") []).
  - apply demo_connected.
  - reflexivity.
  - vm_compute. reflexivity.
Defined.

Lemma fault_propagates_from_unguarded_witness :
  (invoke (Unlink demo_partner (VList [VInt 1; VInt 2; VInt 3]))
     (demo_connection [inl demo_fault])).1 = inl demo_fault.
Proof.
  apply (fault_propagates_from_unguarded (rt := demo_runtime)
           (Unlink demo_partner (VList [VInt 1; VInt 2; VInt 3]))
           (demo_connection [inl demo_fault]) demo_models
           (VStr "odoo") (VInt 2) (VStr "secret") (VInt 1)
           (VStr "Access Denied") []).
  - apply demo_connected.
  - reflexivity.
  - vm_compute. reflexivity.
Defined.

(** ** The further properties on the scripted runtime *)

Definition demo_record : value := VDict [("name", VStr "ZExample1")].

Lemma answer_passed_through_witness :
  (invoke (Read demo_partner (VList [VInt 1]) (VList [VStr "name"]))
     (demo_connection [inr (VList [demo_record])])).1
    = inr (VList [demo_record]) /\
  logged (invoke (Read demo_partner (VList [VInt 1]) (VList [VStr "name"]))
            (demo_connection [inr (VList [demo_record])])).2
    = logged (demo_connection [inr (VList [demo_record])]).
Proof.
  apply (answer_passed_through (rt := demo_runtime)
           (Read demo_partner (VList [VInt 1]) (VList [VStr "name"]))
           (demo_connection [inr (VList [demo_record])]) demo_models
           (VStr "odoo") (VInt 2) (VStr "secret") (VList [demo_record]) []).
  - apply demo_connected.
  - reflexivity.
  - vm_compute. reflexivity.
Defined.

Lemma get_id_falsy_answer_is_sentinel_witness :
  (get_id demo_partner demo_domain (demo_connection [inr (VBool false)])).1
    = inr (VInt (-1)) /\
  logged (get_id demo_partner demo_domain
            (demo_connection [inr (VBool false)])).2
    = logged (demo_connection [inr (VBool false)]).
Proof.
  apply (get_id_falsy_answer_is_sentinel (rt := demo_runtime)
           (demo_connection [inr (VBool false)]) demo_models
           (VStr "odoo") (VInt 2) (VStr "secret") demo_partner demo_domain
           (VBool false) []).
  - apply demo_connected.
  - vm_compute. reflexivity.
  - reflexivity.
Defined.

Lemma get_id_scalar_answer_raises_witness :
  exists msg,
    (get_id demo_partner demo_domain (demo_connection [inr (VInt 5)])).1
    = inl (TypeError msg).
Proof.
  apply (get_id_scalar_answer_raises (rt := demo_runtime)
           (demo_connection [inr (VInt 5)]) demo_models
           (VStr "odoo") (VInt 2) (VStr "secret") demo_partner demo_domain
           (VInt 5) []).
  - apply demo_connected.
  - vm_compute. reflexivity.
  - right. exists 5. split; [reflexivity | lia].
Defined.

Lemma typed_methods_are_generic_calls_witness :
  invoke (Write demo_partner (VInt 3) demo_values)
    (demo_connection [inr (VBool true)])
  = generic_call (Write demo_partner (VInt 3) demo_values)
      (demo_connection [inr (VBool true)]).
Proof.
  apply (typed_methods_are_generic_calls (rt := demo_runtime)).
  - reflexivity.
  - intros _ code text. vm_compute. discriminate.
Defined.

Lemma unguarded_methods_never_log_witness :
  logged (invoke (Search demo_partner demo_domain)
            (demo_connection [inl demo_fault])).2
  = logged (demo_connection [inl demo_fault]).
Proof.
  apply (unguarded_methods_never_log (rt := demo_runtime)).
  reflexivity.
Defined.

Lemma fault_messages_witness :
  logged (create demo_partner demo_values (demo_connection [inl demo_fault])).2
  = logged (demo_connection [inl demo_fault])
    ++ ["err=" +:+ exn_str (Fault (VInt 1) (VStr "Access Denied"))
        +:+ " model=" +:+ py_str demo_partner
        +:+ " values=" +:+ py_str demo_values].
Proof.
  apply (proj1 (fault_messages (rt := demo_runtime)
                  (demo_connection [inl demo_fault]) demo_models
                  (VStr "odoo") (VInt 2) (VStr "secret")
                  (VInt 1) (VStr "Access Denied")
                  (demo_connected [inl demo_fault]))
           demo_partner demo_values []).
  vm_compute. reflexivity.
Defined.

Lemma write_wraps_id_in_list_witness :
  last_positional_args
    (write demo_partner (VInt 3) demo_values
       (demo_connection [inr (VBool true)])).2
  = Some (VList [VList [VInt 3]; demo_values]).
Proof.
  apply (write_wraps_id_in_list (rt := demo_runtime) _ demo_models
           (VStr "odoo") (VInt 2) (VStr "secret")).
  apply demo_connected.
Defined.

Lemma read_passes_ids_and_fields_witness :
  last_positional_args
    (read demo_partner (VList [VInt 1; VInt 2; VInt 3])
       (VList [VStr "name"; VStr "email"]) (demo_connection [inr (VList [])])).2
    = Some (VList [VList [VInt 1; VInt 2; VInt 3]]) /\
  last_keyword_args
    (read demo_partner (VList [VInt 1; VInt 2; VInt 3])
       (VList [VStr "name"; VStr "email"]) (demo_connection [inr (VList [])])).2
    = Some (VDict [("fields", VList [VStr "name"; VStr "email"])]).
Proof.
  apply (read_passes_ids_and_fields (rt := demo_runtime) _ demo_models
           (VStr "odoo") (VInt 2) (VStr "secret")).
  apply demo_connected.
Defined.

Lemma search_read_passes_paging_keywords_witness :
  sent (search_read demo_partner demo_domain (VInt 0) (VInt 1)
          (VList [VStr "name"; VStr "email"])
          (demo_connection [inr (VList [])])).2
  = sent (demo_connection [inr (VList [])])
    ++ [execute_kw_request demo_models (VStr "odoo") (VInt 2) (VStr "secret")
          demo_partner (VStr "search_read") demo_domain
          (Some (VDict [("offset", VInt 0); ("limit", VInt 1);
                        ("fields", VList [VStr "name"; VStr "email"])]))].
Proof.
  apply (search_read_passes_paging_keywords (rt := demo_runtime)).
  apply demo_connected.
Defined.

Lemma count_passes_limit_keyword_witness :
  sent (count demo_partner demo_domain count_limit_default
          (demo_connection [inr (VInt 1)])).2
  = sent (demo_connection [inr (VInt 1)])
    ++ [execute_kw_request demo_models (VStr "odoo") (VInt 2) (VStr "secret")
          demo_partner (VStr "search_count") demo_domain
          (Some (VDict [("limit", count_limit_default)]))].
Proof.
  apply (count_passes_limit_keyword (rt := demo_runtime)).
  apply demo_connected.
Defined.

Lemma create_and_unlink_wrap_argument_witness :
  sent (create demo_partner demo_values (demo_connection [inr (VInt 8)])).2
    = sent (demo_connection [inr (VInt 8)])
      ++ [execute_kw_request demo_models (VStr "odoo") (VInt 2) (VStr "secret")
            demo_partner (VStr "create") (VList [demo_values]) None] /\
  sent (unlink demo_partner demo_values (demo_connection [inr (VInt 8)])).2
    = sent (demo_connection [inr (VInt 8)])
      ++ [execute_kw_request demo_models (VStr "odoo") (VInt 2) (VStr "secret")
            demo_partner (VStr "unlink") (VList [demo_values]) None].
Proof.
  apply (create_and_unlink_wrap_argument (rt := demo_runtime)).
  apply demo_connected.
Defined.

Lemma fields_get_keyword_iff_truthy_witness :
  sent (fields_get demo_partner VNone (demo_connection [inr (VDict [])])).2
  = sent (demo_connection [inr (VDict [])])
    ++ [execute_kw_request demo_models (VStr "odoo") (VInt 2) (VStr "secret")
          demo_partner (VStr "fields_get") (VList []) None].
Proof.
  apply (proj1 (fields_get_keyword_iff_truthy (rt := demo_runtime)
                  (demo_connection [inr (VDict [])]) demo_models
                  (VStr "odoo") (VInt 2) (VStr "secret") demo_partner VNone
                  (demo_connected [inr (VDict [])]))).
  reflexivity.
Defined.

Lemma requests_follow_operations_witness :
  sent (run_all [Create demo_partner demo_values;
                 Search demo_partner demo_domain]
          (demo_connection [inr (VInt 9); inr (VList [VInt 9])]))
    = sent (demo_connection [inr (VInt 9); inr (VList [VInt 9])])
      ++ map (op_request demo_models (VStr "odoo") (VInt 2) (VStr "secret"))
           [Create demo_partner demo_values; Search demo_partner demo_domain] /\
  length (sent (run_all [Create demo_partner demo_values;
                         Search demo_partner demo_domain]
                  (demo_connection [inr (VInt 9); inr (VList [VInt 9])])))
    = (length (sent (demo_connection [inr (VInt 9); inr (VList [VInt 9])]))
       + length [Create demo_partner demo_values;
                 Search demo_partner demo_domain])%nat /\
  connected (run_all [Create demo_partner demo_values;
                      Search demo_partner demo_domain]
               (demo_connection [inr (VInt 9); inr (VList [VInt 9])]))
    demo_models (VStr "odoo") (VInt 2) (VStr "secret").
Proof.
  apply (requests_follow_operations (rt := demo_runtime)).
  apply demo_connected.
Defined.

Lemma constructor_authenticates_once_witness :
  ServerProxy_check (common_uri demo_config) = None /\
  ServerProxy_check (object_uri demo_config) = None /\
  proxies (demo_connection []) !! "common"
    = Some {| uri := common_uri demo_config |} /\
  proxies (demo_connection []) !! "models"
    = Some {| uri := object_uri demo_config |} /\
  sent (demo_connection [])
    = sent (demo_fresh [inr (VInt 2)])
      ++ [{| endpoint := py_str (dict_get demo_config "url")
                         +:+ "/xmlrpc/2/common";
             rpc_method := "authenticate";
             params := [dict_get demo_config "database";
                        dict_get demo_config "username";
                        dict_get demo_config "password"; VDict []] |}] /\
  logged (demo_connection []) = logged (demo_fresh [inr (VInt 2)]).
Proof.
  apply (constructor_authenticates_once (rt := demo_runtime) demo_config
           (demo_fresh [inr (VInt 2)])).
  vm_compute. reflexivity.
Defined.

Lemma constructor_propagates_failure_witness :
  (ServerProxy_check (common_uri demo_config) = Some demo_fault /\
   sent (__init__ demo_config (demo_fresh [inl demo_fault])).2
     = sent (demo_fresh [inl demo_fault]) /\
   server (__init__ demo_config (demo_fresh [inl demo_fault])).2
     = server (demo_fresh [inl demo_fault]) /\
   assigned (__init__ demo_config (demo_fresh [inl demo_fault])).2
     = assigned (demo_fresh [inl demo_fault]) ++ required_options) \/
  (ServerProxy_check (common_uri demo_config) = None /\
   ServerProxy_check (object_uri demo_config) = Some demo_fault /\
   sent (__init__ demo_config (demo_fresh [inl demo_fault])).2
     = sent (demo_fresh [inl demo_fault]) /\
   server (__init__ demo_config (demo_fresh [inl demo_fault])).2
     = server (demo_fresh [inl demo_fault]) /\
   assigned (__init__ demo_config (demo_fresh [inl demo_fault])).2
     = assigned (demo_fresh [inl demo_fault]) ++ required_options ++ ["common"]) \/
  (ServerProxy_check (common_uri demo_config) = None /\
   ServerProxy_check (object_uri demo_config) = None /\
   (transport (server (demo_fresh [inl demo_fault]))
      (authenticate_request demo_config)).1 = inl demo_fault /\
   sent (__init__ demo_config (demo_fresh [inl demo_fault])).2
     = sent (demo_fresh [inl demo_fault]) ++ [authenticate_request demo_config] /\
   server (__init__ demo_config (demo_fresh [inl demo_fault])).2
     = (transport (server (demo_fresh [inl demo_fault]))
          (authenticate_request demo_config)).2 /\
   assigned (__init__ demo_config (demo_fresh [inl demo_fault])).2
     = assigned (demo_fresh [inl demo_fault])
       ++ required_options ++ ["common"; "models"]).
Proof.
  apply (constructor_propagates_failure (rt := demo_runtime) demo_config
           (demo_fresh [inl demo_fault]) demo_fault).
  vm_compute. reflexivity.
Defined.

Lemma unused_options_do_not_matter_witness :
  exists s1',
    __init__ demo_config_url_only (demo_fresh [inr (VInt 2); inr (VList [])])
      = (inr tt, s1') /\
    sent (run_all [Search demo_partner demo_domain] s1')
      = sent (run_all [Search demo_partner demo_domain]
                (demo_connection [inr (VList [])])) /\
    server (run_all [Search demo_partner demo_domain] s1')
      = server (run_all [Search demo_partner demo_domain]
                  (demo_connection [inr (VList [])])).
Proof.
  apply (unused_options_do_not_matter (rt := demo_runtime) demo_config
           demo_config_url_only (demo_fresh [inr (VInt 2); inr (VList [])])).
  - intros k Hk. unfold used_options in Hk.
    repeat (apply elem_of_cons in Hk as [-> | Hk]);
      try (vm_compute; reflexivity).
    apply elem_of_nil in Hk. destruct Hk.
  - vm_compute. reflexivity.
Defined.

(** ** Authentication and options on the runtime that refuses [None] *)

Lemma strict_refuses_None : @marshaller_refuses_None strict_runtime.
Proof.
  intros r req Hnone.
  exists (TypeError "cannot marshal None unless allow_none is enabled").
  split; [| reflexivity].
  cbn [transport strict_runtime]. unfold strict_transport.
  rewrite Hnone. reflexivity.
Defined.



Lemma constructor_reads_options_leniently_witness :
  exists e,
    (@__init__ strict_runtime (delete "password" demo_config)
       (strict_fresh [inr (VInt 2)])).1 = inl e.
Proof.
  destruct (constructor_reads_options_leniently (rt := strict_runtime)
              (delete "password" demo_config) (strict_fresh [inr (VInt 2)]))
    as (_ & _ & _ & _ & _ & _ & Hcredentials).
  apply (Hcredentials strict_refuses_None "password").
  - unfold credential_options.
    apply elem_of_cons. right. apply elem_of_cons. right.
    apply elem_of_cons. left. reflexivity.
  - vm_compute. reflexivity.
Defined.

(** Without [database] the authentication call is refused by the
    marshaller, and without [url] the URI is refused by [ServerProxy]; the
    three other options are not missed. *)
Example construction_without_database :
  (@__init__ strict_runtime (delete "database" demo_config)
     (strict_fresh [inr (VInt 2)])).1
  = inl (TypeError "cannot marshal None unless allow_none is enabled").
Proof. vm_compute. reflexivity. Qed.

Example construction_without_url :
  (@__init__ strict_runtime (delete "url" demo_config)
     (strict_fresh [inr (VInt 2)])).1
  = inl (OSError "unsupported XML-RPC protocol").
Proof. vm_compute. reflexivity. Qed.

Example construction_without_three_options_strict :
  @constructs strict_runtime demo_config_url_only (strict_fresh [inr (VInt 2)])
  = true.
Proof. vm_compute. reflexivity. Qed.
